(** * fovis_ros: the odometer base class ([odometer_base.hpp])

    A shallow embedding of [fovis_ros::OdometerBase]: the per-frame
    integration of the estimator's sensor-frame pose into a body-frame
    pose, the NaN recovery path, the twist and covariance computation,
    the keep-alive republication and the body-to-sensor lookup.

    Numbers are IEEE-754 binary64 values (the kernel's primitive floats),
    so [tfScalar] and [double] arithmetic is evaluated bit for bit.  The
    libraries the class is written against (tf's LinearMath, Eigen's
    matrix-to-quaternion conversion, rostime, the ROS parameter server and
    message defaults) are transcribed as far as [OdometerBase] calls into
    them; the C math library is a parameter of the model. *)

From Stdlib Require Import Floats ZArith List String Ascii Bool Lia.
Import ListNotations.

Set Warnings "-inexact-float".

Local Open Scope float_scope.

(** ** Scalars *)

(** [double] and [tfScalar]. *)
Definition double : Set := float.

(** [std::isnan]. *)
Definition isnan (x : double) : bool := PrimFloat.is_nan x.

(** [std::isfinite]: neither NaN nor an infinity. *)
Definition isfinite (x : double) : bool :=
  negb (PrimFloat.is_nan x) && negb (PrimFloat.is_infinity x).

(** [static_cast<double>] of a 32-bit integer. *)
Definition double_of_Z (z : Z) : double :=
  if (z <? 0)%Z then - PrimFloat.of_uint63 (Uint63.of_Z (- z))
  else PrimFloat.of_uint63 (Uint63.of_Z z).

(** [x > y], [x < y], [x <= y] and [x == y] on doubles; all are false
    when an operand is NaN. *)
Definition dgt (x y : double) : bool := y <? x.
Definition dlt (x y : double) : bool := x <? y.
Definition dle (x y : double) : bool := x <=? y.
Definition deq (x y : double) : bool := x =? y.

(** ** The C math library

    [tfAcos] and [tfPow] end in [acos] and [pow] of the platform's libm.
    The model takes them as a parameter. *)
Record Libm : Set := mkLibm {
  libm_acos : double -> double;
  libm_pow : double -> double -> double
}.

(** A reference libm for concrete runs.  [acos] follows fdlibm's
    [__ieee754_acos] (e_acos.c), with the tests on the high word written
    as comparisons; [pow] covers the exponents 0, 1 and 2, of which the
    program only uses 2 ([tfPow(w, 2.)]), where the product is the
    correctly rounded power. *)
Module Fdlibm.

Definition pi : double := 0x1.921fb54442d18p+1.
Definition pio2_hi : double := 0x1.921fb54442d18p+0.
Definition pio2_lo : double := 0x1.1a62633145c07p-54.
Definition pS0 : double := 1.66666666666666657415e-01.
Definition pS1 : double := -3.25565818622400915405e-01.
Definition pS2 : double := 2.01212532134862925881e-01.
Definition pS3 : double := -4.00555345006794114027e-02.
Definition pS4 : double := 7.91534994289814532176e-04.
Definition pS5 : double := 3.47933107596021167570e-05.
Definition qS1 : double := -2.40339491173441421878e+00.
Definition qS2 : double := 2.02094576023350569471e+00.
Definition qS3 : double := -6.88283971605453293030e-01.
Definition qS4 : double := 7.70381505559019352791e-02.

Definition P (z : double) : double :=
  z * (pS0 + z * (pS1 + z * (pS2 + z * (pS3 + z * (pS4 + z * pS5))))).

Definition Q (z : double) : double :=
  1 + z * (qS1 + z * (qS2 + z * (qS3 + z * qS4))).

(** [__LO(df) = 0]: the low 32 bits of the significand cleared. *)
Definition clear_low_word (s : double) : double :=
  let (m, e) := PrimFloat.frshiftexp s in
  let n := Uint63.to_Z (PrimFloat.normfr_mantissa m) in
  let n' := (n - n mod 4294967296)%Z in
  PrimFloat.ldshiftexp (PrimFloat.of_uint63 (Uint63.of_Z n'))
                       (Uint63.sub e (Uint63.of_Z 53)).

Definition acos (x : double) : double :=
  if negb (PrimFloat.abs x <? 1) then
    if PrimFloat.abs x =? 1 then
      if 0 <? x then 0 else pi + 2 * pio2_lo
    else (x - x) / (x - x)
  else if PrimFloat.abs x <? 0.5 then
    if PrimFloat.abs x <? 0x1.00001p-57 then pio2_hi + pio2_lo
    else
      let z := x * x in
      let r := P z / Q z in
      pio2_hi - (x - (pio2_lo - r * x))
  else if x <? 0 then
    let z := (1 + x) * 0.5 in
    let s := PrimFloat.sqrt z in
    let r := P z / Q z in
    let w := r * s - pio2_lo in
    pi - 2 * (s + w)
  else
    let z := (1 - x) * 0.5 in
    let s := PrimFloat.sqrt z in
    let df := clear_low_word s in
    let c := (z - df * df) / (s + df) in
    let r := P z / Q z in
    let w := r * s + c in
    2 * (df + w).

Definition pow (x y : double) : double :=
  if y =? 2 then x * x
  else if y =? 1 then x
  else if y =? 0 then 1
  else nan.

Definition libm : Libm := {| libm_acos := acos; libm_pow := pow |}.

End Fdlibm.

(** ** rostime

    [ros::Time] holds unsigned seconds and nanoseconds, [ros::Duration]
    signed ones.  The 32-bit ranges are not modelled: a difference outside
    the range of a [Duration] makes rostime throw. *)
Module ros.

Record Time : Set := mkTime { sec : Z; nsec : Z }.
Record Duration : Set := mkDuration { dsec : Z; dnsec : Z }.

(** [ros::Time()] and [ros::Time(0)]. *)
Definition Time_zero : Time := mkTime 0 0.

Definition isZero (t : Time) : bool := (sec t =? 0)%Z && (nsec t =? 0)%Z.

Definition toNSec (t : Time) : Z := (sec t * 1000000000 + nsec t)%Z.

(** [normalizeSecNSecSigned] after a truncating division: one borrow at
    most. *)
Definition normalizeSecNSecSigned (s n : Z) : Duration :=
  if (n <? 0)%Z then mkDuration (s - 1) (n + 1000000000) else mkDuration s n.

(** [Duration::fromNSec]. *)
Definition fromNSec (t : Z) : Duration :=
  normalizeSecNSecSigned (Z.quot t 1000000000) (Z.rem t 1000000000).

(** [Time::operator-(const Time&)]. *)
Definition Time_sub (a b : Time) : Duration := fromNSec (toNSec a - toNSec b).

(** [Duration::toSec]. *)
Definition toSec (d : Duration) : double :=
  double_of_Z (dsec d) + 1e-9 * double_of_Z (dnsec d).

(** [Time::toSec]. *)
Definition Time_toSec (t : Time) : double :=
  double_of_Z (sec t) + 1e-9 * double_of_Z (nsec t).

(** [Duration::operator>]. *)
Definition Duration_gt (a b : Duration) : bool :=
  if (dsec b <? dsec a)%Z then true
  else if (dsec a =? dsec b)%Z && (dnsec b <? dnsec a)%Z then true
  else false.

(** [ros::Duration(9.0)]. *)
Definition Duration_9 : Duration := mkDuration 9 0.

End ros.

(** ** tf's LinearMath *)
Module tf.

Record Vector3 : Set := mkVector3 { getX : double; getY : double; getZ : double }.

Record Quaternion : Set :=
  mkQuaternion { qx : double; qy : double; qz : double; qw : double }.

(** Rows [m_el[0..2]]. *)
Record Matrix3x3 : Set := mkMatrix3x3 { row0 : Vector3; row1 : Vector3; row2 : Vector3 }.

Record Transform : Set := mkTransform { m_basis : Matrix3x3; m_origin : Vector3 }.

Record StampedTransform : Set := mkStampedTransform {
  data : Transform;
  stamp_ : ros.Time;
  frame_id_ : string;
  child_frame_id_ : string
}.

Definition dot (a b : Vector3) : double :=
  getX a * getX b + getY a * getY b + getZ a * getZ b.

(** [operator*(const Vector3&, const tfScalar&)]. *)
Definition scale (v : Vector3) (s : double) : Vector3 :=
  mkVector3 (getX v * s) (getY v * s) (getZ v * s).

(** [operator/(const Vector3&, const tfScalar&)]: a product with the
    reciprocal. *)
Definition vdiv (v : Vector3) (s : double) : Vector3 := scale v (1 / s).

(** Unary minus. *)
Definition neg (v : Vector3) : Vector3 :=
  mkVector3 (- getX v) (- getY v) (- getZ v).

(** [m_el[i][j]]. *)
Definition row (m : Matrix3x3) (i : nat) : Vector3 :=
  match i with 0%nat => row0 m | 1%nat => row1 m | _ => row2 m end.

Definition comp (v : Vector3) (j : nat) : double :=
  match j with 0%nat => getX v | 1%nat => getY v | _ => getZ v end.

Definition el (m : Matrix3x3) (i j : nat) : double := comp (row m i) j.

Definition Matrix_identity : Matrix3x3 :=
  mkMatrix3x3 (mkVector3 1 0 0) (mkVector3 0 1 0) (mkVector3 0 0 1).

Definition length2 (q : Quaternion) : double :=
  qx q * qx q + qy q * qy q + qz q * qz q + qw q * qw q.

(** [Matrix3x3::setRotation]. *)
Definition setRotation (q : Quaternion) : Matrix3x3 :=
  let d := length2 q in
  let s := 2 / d in
  let xs := qx q * s in let ys := qy q * s in let zs := qz q * s in
  let wx := qw q * xs in let wy := qw q * ys in let wz := qw q * zs in
  let xx := qx q * xs in let xy := qx q * ys in let xz := qx q * zs in
  let yy := qy q * ys in let yz := qy q * zs in let zz := qz q * zs in
  mkMatrix3x3
    (mkVector3 (1 - (yy + zz)) (xy - wz) (xz + wy))
    (mkVector3 (xy + wz) (1 - (xx + zz)) (yz - wx))
    (mkVector3 (xz - wy) (yz + wx) (1 - (xx + yy))).

(** The four slots [temp[0..3]] of [Matrix3x3::getRotation]. *)
Definition temp_set (t : Quaternion) (i : nat) (v : double) : Quaternion :=
  match i with
  | 0%nat => mkQuaternion v (qy t) (qz t) (qw t)
  | 1%nat => mkQuaternion (qx t) v (qz t) (qw t)
  | 2%nat => mkQuaternion (qx t) (qy t) v (qw t)
  | _ => mkQuaternion (qx t) (qy t) (qz t) v
  end.

(** [Matrix3x3::getRotation]. *)
Definition Matrix_getRotation (m : Matrix3x3) : Quaternion :=
  let trace := el m 0 0 + el m 1 1 + el m 2 2 in
  if dgt trace 0 then
    let s := PrimFloat.sqrt (trace + 1) in
    let t3 := s * 0.5 in
    let s := 0.5 / s in
    mkQuaternion ((el m 2 1 - el m 1 2) * s)
                 ((el m 0 2 - el m 2 0) * s)
                 ((el m 1 0 - el m 0 1) * s)
                 t3
  else
    let i := if dlt (el m 0 0) (el m 1 1)
             then (if dlt (el m 1 1) (el m 2 2) then 2%nat else 1%nat)
             else (if dlt (el m 0 0) (el m 2 2) then 2%nat else 0%nat) in
    let j := ((i + 1) mod 3)%nat in
    let k := ((i + 2) mod 3)%nat in
    let s := PrimFloat.sqrt (el m i i - el m j j - el m k k + 1) in
    let temp := temp_set (mkQuaternion 0 0 0 0) i (s * 0.5) in
    let s := 0.5 / s in
    let temp := temp_set temp 3 ((el m k j - el m j k) * s) in
    let temp := temp_set temp j ((el m j i + el m i j) * s) in
    let temp := temp_set temp k ((el m k i + el m i k) * s) in
    temp.

Definition transpose (m : Matrix3x3) : Matrix3x3 :=
  mkMatrix3x3 (mkVector3 (el m 0 0) (el m 1 0) (el m 2 0))
              (mkVector3 (el m 0 1) (el m 1 1) (el m 2 1))
              (mkVector3 (el m 0 2) (el m 1 2) (el m 2 2)).

Definition tdotx (m : Matrix3x3) (v : Vector3) : double :=
  el m 0 0 * getX v + el m 1 0 * getY v + el m 2 0 * getZ v.
Definition tdoty (m : Matrix3x3) (v : Vector3) : double :=
  el m 0 1 * getX v + el m 1 1 * getY v + el m 2 1 * getZ v.
Definition tdotz (m : Matrix3x3) (v : Vector3) : double :=
  el m 0 2 * getX v + el m 1 2 * getY v + el m 2 2 * getZ v.

(** [operator*(const Matrix3x3&, const Matrix3x3&)]. *)
Definition Matrix_mul (m1 m2 : Matrix3x3) : Matrix3x3 :=
  mkMatrix3x3
    (mkVector3 (tdotx m2 (row0 m1)) (tdoty m2 (row0 m1)) (tdotz m2 (row0 m1)))
    (mkVector3 (tdotx m2 (row1 m1)) (tdoty m2 (row1 m1)) (tdotz m2 (row1 m1)))
    (mkVector3 (tdotx m2 (row2 m1)) (tdoty m2 (row2 m1)) (tdotz m2 (row2 m1))).

(** [operator*(const Matrix3x3&, const Vector3&)]. *)
Definition Matrix_vec (m : Matrix3x3) (v : Vector3) : Vector3 :=
  mkVector3 (dot (row0 m) v) (dot (row1 m) v) (dot (row2 m) v).

(** [Transform::operator()(const Vector3&)]. *)
Definition apply (t : Transform) (v : Vector3) : Vector3 :=
  mkVector3 (dot (row0 (m_basis t)) v + getX (m_origin t))
            (dot (row1 (m_basis t)) v + getY (m_origin t))
            (dot (row2 (m_basis t)) v + getZ (m_origin t)).

(** [Transform::operator*]. *)
Definition mul (a b : Transform) : Transform :=
  mkTransform (Matrix_mul (m_basis a) (m_basis b)) (apply a (m_origin b)).

(** [Transform::inverse]. *)
Definition inverse (t : Transform) : Transform :=
  let inv := transpose (m_basis t) in
  mkTransform inv (Matrix_vec inv (neg (m_origin t))).

(** [Transform(const Quaternion&, const Vector3&)]. *)
Definition Transform_of (q : Quaternion) (c : Vector3) : Transform :=
  mkTransform (setRotation q) c.

Definition identity : Transform := mkTransform Matrix_identity (mkVector3 0 0 0).

Definition getOrigin (t : Transform) : Vector3 := m_origin t.
Definition getRotation (t : Transform) : Quaternion := Matrix_getRotation (m_basis t).
Definition setOrigin (t : Transform) (o : Vector3) : Transform :=
  mkTransform (m_basis t) o.

(** [StampedTransform::setIdentity] is [Transform::setIdentity]: the stamp
    and the frame ids stay. *)
Definition setIdentity (s : StampedTransform) : StampedTransform :=
  mkStampedTransform identity (stamp_ s) (frame_id_ s) (child_frame_id_ s).

(** A default-constructed [StampedTransform].  Its transform data is
    indeterminate in C++; every use below overwrites it before reading. *)
Definition StampedTransform_default : StampedTransform :=
  mkStampedTransform identity ros.Time_zero EmptyString EmptyString.

(** [TFSIMD_EPSILON] is [DBL_EPSILON]. *)
Definition TFSIMD_EPSILON : double := 0x1p-52.

Section WithLibm.
Variable lm : Libm.

(** [tfAcos]: the argument is clamped to [-1, 1] before libm's [acos]
    sees it. *)
Definition tfAcos (x : double) : double :=
  let x := if dlt x (-1) then -1 else x in
  let x := if dgt x 1 then 1 else x in
  libm_acos lm x.

(** [Quaternion::getAngle]: twice [tfAcos] of [w]. *)
Definition getAngle (q : Quaternion) : double := 2 * tfAcos (qw q).

(** [Quaternion::getAxis]. *)
Definition getAxis (q : Quaternion) : Vector3 :=
  let s_squared := 1 - libm_pow lm (qw q) 2 in
  if dlt s_squared (10 * TFSIMD_EPSILON) then mkVector3 1 0 0
  else
    let s := PrimFloat.sqrt s_squared in
    mkVector3 (qx q / s) (qy q / s) (qz q / s).

End WithLibm.

(** [Quaternion::normalize]: division by the length, a product with its
    reciprocal. *)
Definition normalize (q : Quaternion) : Quaternion :=
  let s := 1 / PrimFloat.sqrt (length2 q) in
  mkQuaternion (qx q * s) (qy q * s) (qz q * s) (qw q * s).

(** [QUATERNION_TOLERANCE] is the float literal [0.1f]. *)
Definition QUATERNION_TOLERANCE : double := 0x1.99999ap-4.

End tf.

(** ** Eigen *)
Module Eigen.

Record Vector3d : Set := mkVector3d { x : double; y : double; z : double }.

Record Matrix3d : Set := mkMatrix3d {
  m00 : double; m01 : double; m02 : double;
  m10 : double; m11 : double; m12 : double;
  m20 : double; m21 : double; m22 : double
}.

Definition coeff (m : Matrix3d) (i j : nat) : double :=
  match i, j with
  | 0%nat, 0%nat => m00 m | 0%nat, 1%nat => m01 m | 0%nat, _ => m02 m
  | 1%nat, 0%nat => m10 m | 1%nat, 1%nat => m11 m | 1%nat, _ => m12 m
  | _, 0%nat => m20 m | _, 1%nat => m21 m | _, _ => m22 m
  end.

(** [Eigen::Isometry3d]: [linear()] and [translation()].  For an isometry
    [rotation()] is [linear()]. *)
Record Isometry3d : Set := mkIsometry3d { linear : Matrix3d; translation : Vector3d }.

Definition rotation (t : Isometry3d) : Matrix3d := linear t.

(** [Eigen::Quaterniond], coefficients in the order x, y, z, w. *)
Record Quaterniond : Set :=
  mkQuaterniond { ex : double; ey : double; ez : double; ew : double }.

Definition coeffRef_set (q : Quaterniond) (i : nat) (v : double) : Quaterniond :=
  match i with
  | 0%nat => mkQuaterniond v (ey q) (ez q) (ew q)
  | 1%nat => mkQuaterniond (ex q) v (ez q) (ew q)
  | _ => mkQuaterniond (ex q) (ey q) v (ew q)
  end.

(** [Quaterniond(const Matrix3d&)]. *)
Definition Quaterniond_of (mat : Matrix3d) : Quaterniond :=
  let t := coeff mat 0 0 + coeff mat 1 1 + coeff mat 2 2 in
  if dgt t 0 then
    let t := PrimFloat.sqrt (t + 1) in
    let w := 0.5 * t in
    let t := 0.5 / t in
    mkQuaterniond ((coeff mat 2 1 - coeff mat 1 2) * t)
                  ((coeff mat 0 2 - coeff mat 2 0) * t)
                  ((coeff mat 1 0 - coeff mat 0 1) * t)
                  w
  else
    let i := 0%nat in
    let i := if dgt (coeff mat 1 1) (coeff mat 0 0) then 1%nat else i in
    let i := if dgt (coeff mat 2 2) (coeff mat i i) then 2%nat else i in
    let j := ((i + 1) mod 3)%nat in
    let k := ((j + 1) mod 3)%nat in
    let t := PrimFloat.sqrt (coeff mat i i - coeff mat j j - coeff mat k k + 1) in
    let q := coeffRef_set (mkQuaterniond 0 0 0 0) i (0.5 * t) in
    let t := 0.5 / t in
    let q := mkQuaterniond (ex q) (ey q) (ez q)
                           ((coeff mat k j - coeff mat j k) * t) in
    let q := coeffRef_set q j ((coeff mat j i + coeff mat i j) * t) in
    let q := coeffRef_set q k ((coeff mat k i + coeff mat i k) * t) in
    q.

(** [Eigen::MatrixXd], read through [operator()(i, j)]. *)
Definition MatrixXd : Set := nat -> nat -> double.

Definition Matrix3d_identity : Matrix3d := mkMatrix3d 1 0 0 0 1 0 0 0 1.

End Eigen.

(** ** Messages

    Generated ROS messages zero every numeric field, so a default
    quaternion is (0, 0, 0, 0) and a default covariance is 36 zeros. *)
Module msg.

Record Header : Set := mkHeader { stamp : ros.Time; frame_id : string }.
Definition Header_default : Header := mkHeader ros.Time_zero EmptyString.

Record Point : Set := mkPoint { pt_x : double; pt_y : double; pt_z : double }.
Record Quaternion : Set :=
  mkQuaternion { q_x : double; q_y : double; q_z : double; q_w : double }.
Record Pose : Set := mkPose { position : Point; orientation : Quaternion }.
Definition Pose_default : Pose := mkPose (mkPoint 0 0 0) (mkQuaternion 0 0 0 0).

Record Vector3 : Set := mkVector3 { v_x : double; v_y : double; v_z : double }.
Record Twist : Set := mkTwist { linear : Vector3; angular : Vector3 }.
Definition Twist_default : Twist := mkTwist (mkVector3 0 0 0) (mkVector3 0 0 0).

(** [boost::array<double, 36>]. *)
Definition Covariance : Set := list double.
Definition Covariance_default : Covariance := repeat 0 36.

Record PoseWithCovariance : Set :=
  mkPoseWithCovariance { pose : Pose; pose_covariance : Covariance }.
Record TwistWithCovariance : Set :=
  mkTwistWithCovariance { twist : Twist; twist_covariance : Covariance }.

(** [nav_msgs::Odometry]. *)
Record Odometry : Set := mkOdometry {
  odom_header : Header;
  child_frame_id : string;
  odom_pose : PoseWithCovariance;
  odom_twist : TwistWithCovariance
}.

Definition Odometry_default : Odometry :=
  mkOdometry Header_default EmptyString
             (mkPoseWithCovariance Pose_default Covariance_default)
             (mkTwistWithCovariance Twist_default Covariance_default).

(** [geometry_msgs::PoseStamped]. *)
Record PoseStamped : Set := mkPoseStamped { ps_header : Header; ps_pose : Pose }.
Definition PoseStamped_default : PoseStamped := mkPoseStamped Header_default Pose_default.

(** [fovis_ros::FovisInfo]. *)
Record FovisInfo : Set := mkFovisInfo {
  info_header : Header;
  change_reference_frame : bool;
  fast_threshold : Z;
  num_total_detected_keypoints : Z;
  num_total_keypoints : Z;
  num_detected_keypoints : list Z;
  num_keypoints : list Z;
  motion_estimate_status_code : Z;
  motion_estimate_status : string;
  num_matches : Z;
  num_inliers : Z;
  num_reprojection_failures : Z;
  motion_estimate_valid : bool;
  runtime : double
}.

(** [sensor_msgs::Image] as far as [process] reads it. *)
Record Image : Set := mkImage { image_header : Header; width : Z }.

(** [sensor_msgs::CameraInfo] with the numbers the pinhole model derives
    from it. *)
Record CameraInfo : Set := mkCameraInfo {
  ci_header : Header;
  ci_cx : double; ci_cy : double; ci_fx : double; ci_fy : double;
  ci_width : Z; ci_height : Z
}.

End msg.

(** [a[k] = v] on a fixed-size array; an index past the end is undefined
    in C++ and leaves the list as it is here. *)
Fixpoint array_set (a : list double) (k : nat) (v : double) : list double :=
  match a, k with
  | [], _ => []
  | _ :: t, O => v :: t
  | h :: t, S k' => h :: array_set t k' v
  end.

Definition array_get (a : list double) (k : nat) : double := nth k a 0.

(** ** The estimator (libfovis) *)
Module fovis.

Inductive MotionEstimateStatusCode : Set :=
| NO_DATA | SUCCESS | INSUFFICIENT_INLIERS | OPTIMIZATION_FAILURE | REPROJECTION_ERROR.

Definition code (s : MotionEstimateStatusCode) : Z :=
  match s with
  | NO_DATA => 0 | SUCCESS => 1 | INSUFFICIENT_INLIERS => 2
  | OPTIMIZATION_FAILURE => 3 | REPROJECTION_ERROR => 4
  end%Z.

Definition MotionEstimateStatusCodeStrings (s : MotionEstimateStatusCode) : string :=
  match s with
  | NO_DATA => "NO_DATA"
  | SUCCESS => "SUCCESS"
  | INSUFFICIENT_INLIERS => "INSUFFICIENT_INLIERS"
  | OPTIMIZATION_FAILURE => "OPTIMIZATION_FAILURE"
  | REPROJECTION_ERROR => "REPROJECTION_ERROR"
  end%string.

Definition is_success (s : MotionEstimateStatusCode) : bool :=
  match s with SUCCESS => true | _ => false end.

Record CameraIntrinsicsParameters : Set := mkCameraIntrinsicsParameters {
  cx : double; cy : double; fx : double; fy : double;
  cam_width : Z; cam_height : Z
}.

(** [std::map<std::string, std::string>], in key order. *)
Definition VisualOdometryOptions : Set := list (string * string).

(** What a [VisualOdometry] was built from.  Its inner state is the
    estimator's business; what it reports after [processFrame] is read
    from [Readings] below. *)
Record VisualOdometry : Set := mkVisualOdometry {
  vo_rectification : CameraIntrinsicsParameters;
  vo_options : VisualOdometryOptions
}.

(** What [visual_odometer_] reports after [processFrame] on one image. *)
Record Readings : Set := mkReadings {
  getMotionEstimateStatus : MotionEstimateStatusCode;
  getPose : Eigen.Isometry3d;
  getMotionEstimate : Eigen.Isometry3d;
  getMotionEstimateCov : Eigen.MatrixXd;
  getChangeReferenceFrames : bool;
  getFastThreshold : Z;
  getNumDetectedKeypoints : Z;
  getNumKeypoints : Z;
  (** per pyramid level: detected keypoints, keypoints *)
  getLevels : list (Z * Z);
  getNumMatches : Z;
  getNumInliers : Z;
  getNumReprojectionFailures : Z;
  isMotionEstimateValid : bool
}.

End fovis.

(** ** The parameter server and the transform listener *)

Inductive XmlRpcValue : Set :=
| TypeBoolean (b : bool)
| TypeInt (i : Z)
| TypeDouble (d : double)
| TypeString (s : string).

(** The private namespace of the node. *)
Definition ParamServer : Set := string -> option XmlRpcValue.

Definition hasParam (ps : ParamServer) (name : string) : bool :=
  match ps name with Some _ => true | None => false end.

Definition getParam_string (ps : ParamServer) (name : string) : option string :=
  match ps name with Some (TypeString s) => Some s | _ => None end.

Definition getParam_bool (ps : ParamServer) (name : string) : option bool :=
  match ps name with Some (TypeBoolean b) => Some b | _ => None end.

(** An integer parameter is accepted where a double is asked for. *)
Definition getParam_double (ps : ParamServer) (name : string) : option double :=
  match ps name with
  | Some (TypeInt i) => Some (double_of_Z i)
  | Some (TypeDouble d) => Some d
  | _ => None
  end.

(** [NodeHandle::param(name, val, default)]. *)
Definition param {T : Set} (get : ParamServer -> string -> option T)
           (ps : ParamServer) (name : string) (default : T) : T :=
  match get ps name with Some v => v | None => default end.

(** [tf::TransformListener] at the time of one call. [lookupTransform] is
    only called after [canTransform] said yes, where it returns. *)
Record TransformListener : Set := mkTransformListener {
  canTransform : string -> string -> ros.Time -> bool;
  lookupTransform : string -> string -> ros.Time -> tf.StampedTransform
}.

(** ** What the node emits *)

Inductive LogLevel : Set := DEBUG | INFO | WARN | ERROR.

Inductive LogText : Set :=
| Reinitializing
| NaN_in_fovis_tf
| odometry_failed (status : string)
| tf_not_available (base_link_frame_id sensor_frame_id : string)
| Transform_error
| Quaternion_not_normalized
| Initialized (options : fovis.VisualOdometryOptions).

Inductive Event : Set :=
| sendTransform (t : tf.StampedTransform)
| odom_pub_publish (m : msg.Odometry)
| pose_pub_publish (m : msg.PoseStamped)
| info_pub_publish (m : msg.FovisInfo)
| features_pub_publish (h : msg.Header)
| ROS_LOG (level : LogLevel) (text : LogText).

(** ** OdometerBase *)

Record OdometerBase : Set := mkOdometerBase {
  visual_odometer_ : option fovis.VisualOdometry;
  depth_source_ : option nat;
  visual_odometer_options_ : fovis.VisualOdometryOptions;
  reset_odometer_ : bool;
  last_time_ : ros.Time;
  last_published_tf_time_ : ros.Time;
  base_transform_ : tf.Transform;
  translation_correction_factor_ : double;
  odom_frame_id_ : string;
  base_link_frame_id_ : string;
  publish_tf_ : bool;
  initial_base_to_sensor_ : tf.StampedTransform;
  (** the function-static [last_hit] of the throttled warning in
      [getBaseToSensorTransform] *)
  throttle_last_hit : double
}.

(** What one call of [process] reads from its arguments and surroundings. *)
Record Frame : Set := mkFrame {
  image_msg : msg.Image;
  info_msg : msg.CameraInfo;
  (** [cv_ptr->image.step[0]] *)
  cv_step : Z;
  readings : fovis.Readings;
  tf_listener : TransformListener;
  (** [ros::Time::now()] at the throttled warning of the lookup in
      [initOdometer] and of the one in [process] *)
  now_init : ros.Time;
  now_lookup : ros.Time;
  features_subscribers : Z;
  (** wall-clock seconds between entry and the info message *)
  wall_elapsed : double
}.

(** Assignments to the members that change after construction. *)
Definition set_visual_odometer (s : OdometerBase) (v : option fovis.VisualOdometry) : OdometerBase :=
  mkOdometerBase v (depth_source_ s) (visual_odometer_options_ s) (reset_odometer_ s)
    (last_time_ s) (last_published_tf_time_ s) (base_transform_ s)
    (translation_correction_factor_ s) (odom_frame_id_ s) (base_link_frame_id_ s)
    (publish_tf_ s) (initial_base_to_sensor_ s) (throttle_last_hit s).

Definition set_depth_source (s : OdometerBase) (v : option nat) : OdometerBase :=
  mkOdometerBase (visual_odometer_ s) v (visual_odometer_options_ s) (reset_odometer_ s)
    (last_time_ s) (last_published_tf_time_ s) (base_transform_ s)
    (translation_correction_factor_ s) (odom_frame_id_ s) (base_link_frame_id_ s)
    (publish_tf_ s) (initial_base_to_sensor_ s) (throttle_last_hit s).

Definition set_reset_odometer (s : OdometerBase) (v : bool) : OdometerBase :=
  mkOdometerBase (visual_odometer_ s) (depth_source_ s) (visual_odometer_options_ s) v
    (last_time_ s) (last_published_tf_time_ s) (base_transform_ s)
    (translation_correction_factor_ s) (odom_frame_id_ s) (base_link_frame_id_ s)
    (publish_tf_ s) (initial_base_to_sensor_ s) (throttle_last_hit s).

Definition set_last_time (s : OdometerBase) (v : ros.Time) : OdometerBase :=
  mkOdometerBase (visual_odometer_ s) (depth_source_ s) (visual_odometer_options_ s)
    (reset_odometer_ s) v (last_published_tf_time_ s) (base_transform_ s)
    (translation_correction_factor_ s) (odom_frame_id_ s) (base_link_frame_id_ s)
    (publish_tf_ s) (initial_base_to_sensor_ s) (throttle_last_hit s).

Definition set_last_published_tf_time (s : OdometerBase) (v : ros.Time) : OdometerBase :=
  mkOdometerBase (visual_odometer_ s) (depth_source_ s) (visual_odometer_options_ s)
    (reset_odometer_ s) (last_time_ s) v (base_transform_ s)
    (translation_correction_factor_ s) (odom_frame_id_ s) (base_link_frame_id_ s)
    (publish_tf_ s) (initial_base_to_sensor_ s) (throttle_last_hit s).

Definition set_base_transform (s : OdometerBase) (v : tf.Transform) : OdometerBase :=
  mkOdometerBase (visual_odometer_ s) (depth_source_ s) (visual_odometer_options_ s)
    (reset_odometer_ s) (last_time_ s) (last_published_tf_time_ s) v
    (translation_correction_factor_ s) (odom_frame_id_ s) (base_link_frame_id_ s)
    (publish_tf_ s) (initial_base_to_sensor_ s) (throttle_last_hit s).

Definition set_initial_base_to_sensor (s : OdometerBase) (v : tf.StampedTransform) : OdometerBase :=
  mkOdometerBase (visual_odometer_ s) (depth_source_ s) (visual_odometer_options_ s)
    (reset_odometer_ s) (last_time_ s) (last_published_tf_time_ s) (base_transform_ s)
    (translation_correction_factor_ s) (odom_frame_id_ s) (base_link_frame_id_ s)
    (publish_tf_ s) v (throttle_last_hit s).

Definition set_throttle_last_hit (s : OdometerBase) (v : double) : OdometerBase :=
  mkOdometerBase (visual_odometer_ s) (depth_source_ s) (visual_odometer_options_ s)
    (reset_odometer_ s) (last_time_ s) (last_published_tf_time_ s) (base_transform_ s)
    (translation_correction_factor_ s) (odom_frame_id_ s) (base_link_frame_id_ s)
    (publish_tf_ s) (initial_base_to_sensor_ s) v.

(** [std::replace(key.begin(), key.end(), '-', '_')]. *)
Fixpoint replace_dash (key : string) : string :=
  match key with
  | EmptyString => EmptyString
  | String c rest =>
      String (if Ascii.eqb c "-"%char then "_"%char else c) (replace_dash rest)
  end.

(** The loop of [loadParams] over the estimator's options: a parameter
    named like the key overrides the value; one that is not a string
    leaves the empty string. *)
Definition load_options (ps : ParamServer) (opts : fovis.VisualOdometryOptions)
  : fovis.VisualOdometryOptions :=
  map (fun kv : string * string =>
         let key := replace_dash (fst kv) in
         if hasParam ps key
         then (fst kv, match getParam_string ps key with
                       | Some v => v
                       | None => EmptyString
                       end)
         else kv) opts.

(** [translation_correction_factor_] as [loadParams] leaves it. *)
Definition load_tf_factor (ps : ParamServer) : double :=
  let f := param getParam_double ps "tf_factor" 1 in
  if deq f 0 then 1 else f.

(** [loadParams]. *)
Definition loadParams (ps : ParamServer) (s : OdometerBase) : OdometerBase :=
  mkOdometerBase (visual_odometer_ s) (depth_source_ s)
    (load_options ps (visual_odometer_options_ s))
    (reset_odometer_ s) (last_time_ s) (last_published_tf_time_ s) (base_transform_ s)
    (load_tf_factor ps)
    (param getParam_string ps "odom_frame_id" "/odom"%string)
    (param getParam_string ps "base_link_frame_id" "/base_link"%string)
    (param getParam_bool ps "publish_tf" true)
    (initial_base_to_sensor_ s) (throttle_last_hit s).

(** The constructor; [default_options] is
    [fovis::VisualOdometry::getDefaultOptions()]. *)
Definition OdometerBase_new (ps : ParamServer)
           (default_options : fovis.VisualOdometryOptions) : OdometerBase :=
  loadParams ps
    (mkOdometerBase None None default_options false ros.Time_zero ros.Time_zero
       tf.identity 0 EmptyString EmptyString false tf.StampedTransform_default 0).

Definition setDepthSource (s : OdometerBase) (source : nat) : OdometerBase :=
  set_depth_source s (Some source).

Definition rosToFovis (info : msg.CameraInfo) : fovis.CameraIntrinsicsParameters :=
  fovis.mkCameraIntrinsicsParameters
    (msg.ci_cx info) (msg.ci_cy info) (msg.ci_fx info) (msg.ci_fy info)
    (msg.ci_width info) (msg.ci_height info).

(** [processReinitFovis]. *)
Definition processReinitFovis (s : OdometerBase) : OdometerBase * list Event :=
  match visual_odometer_ s with
  | Some _ => (set_visual_odometer s None, [ROS_LOG INFO Reinitializing])
  | None => (s, [])
  end.

(** [publishLastKnownTf]; [now1] and [now2] are its two readings of
    [ros::Time::now()]. *)
Definition publishLastKnownTf (s : OdometerBase) (now1 now2 : ros.Time)
  : OdometerBase * list Event :=
  if publish_tf_ s
     && ros.Duration_gt (ros.Time_sub now1 (last_published_tf_time_ s)) ros.Duration_9
  then
    let s := set_last_published_tf_time s now2 in
    (s, [sendTransform
           (tf.mkStampedTransform (base_transform_ s) (last_published_tf_time_ s)
              (odom_frame_id_ s) (base_link_frame_id_ s))])
  else (s, []).

(** [ROS_WARN_THROTTLE(10.0, ...)]: the warning is let through when
    [last_hit + 10.0 <= now], and [last_hit] becomes [now]. *)
Definition warn_throttle (s : OdometerBase) (now : ros.Time) (text : LogText)
  : OdometerBase * list Event :=
  let now_s := ros.Time_toSec now in
  if dle (throttle_last_hit s + 10) now_s
  then (set_throttle_last_hit s now_s, [ROS_LOG WARN text])
  else (s, []).

(** [getBaseToSensorTransform]; the last argument is the value the
    reference [base_to_sensor] holds on entry. *)
Definition getBaseToSensorTransform (s : OdometerBase) (listener : TransformListener)
           (now : ros.Time) (stamp : ros.Time) (sensor_frame_id : string)
           (base_to_sensor : tf.StampedTransform)
  : OdometerBase * tf.StampedTransform * list Event :=
  if canTransform listener (base_link_frame_id_ s) sensor_frame_id ros.Time_zero
  then (s, lookupTransform listener (base_link_frame_id_ s) sensor_frame_id ros.Time_zero, [])
  else
    let (s', ev) :=
      warn_throttle s now (tf_not_available (base_link_frame_id_ s) sensor_frame_id) in
    (s', tf.setIdentity base_to_sensor, ev ++ [ROS_LOG DEBUG Transform_error]).

(** [eigenToTF]. *)
Definition eigenToTF (pose : Eigen.Isometry3d) : tf.Transform :=
  let origin := tf.mkVector3 (Eigen.x (Eigen.translation pose))
                             (Eigen.y (Eigen.translation pose))
                             (Eigen.z (Eigen.translation pose)) in
  let rotation := Eigen.Quaterniond_of (Eigen.rotation pose) in
  let quat := tf.mkQuaternion (Eigen.ex rotation) (Eigen.ey rotation)
                              (Eigen.ez rotation) (Eigen.ew rotation) in
  tf.Transform_of quat origin.

(** [initOdometer]. *)
Definition initOdometer (s : OdometerBase) (fr : Frame) : OdometerBase * list Event :=
  let cam_params := rosToFovis (info_msg fr) in
  let s := set_visual_odometer s
             (Some (fovis.mkVisualOdometry cam_params (visual_odometer_options_ s))) in
  let (s, ev) :=
    if negb (reset_odometer_ s) then
      let '(s', t, ev) :=
        getBaseToSensorTransform s (tf_listener fr) (now_init fr)
          (msg.stamp (msg.ci_header (info_msg fr)))
          (msg.frame_id (msg.ci_header (info_msg fr)))
          (initial_base_to_sensor_ s) in
      (set_initial_base_to_sensor s' t, ev)
    else (set_reset_odometer s false, []) in
  (s, ev ++ [ROS_LOG INFO
               (Initialized (map (fun kv : string * string => (replace_dash (fst kv), snd kv))
                                 (visual_odometer_options_ s)))]).

(** [tf::quaternionTFToMsg]: a quaternion off unit length by more than the
    tolerance is normalised, with a warning. *)
Definition quaternionTFToMsg (bt : tf.Quaternion) : msg.Quaternion * list Event :=
  if dgt (PrimFloat.abs (tf.length2 bt - 1)) tf.QUATERNION_TOLERANCE then
    let n := tf.normalize bt in
    (msg.mkQuaternion (tf.qx n) (tf.qy n) (tf.qz n) (tf.qw n),
     [ROS_LOG WARN Quaternion_not_normalized])
  else (msg.mkQuaternion (tf.qx bt) (tf.qy bt) (tf.qz bt) (tf.qw bt), []).

(** [tf::poseTFToMsg]. *)
Definition poseTFToMsg (bt : tf.Transform) : msg.Pose * list Event :=
  let o := tf.getOrigin bt in
  let (q, ev) := quaternionTFToMsg (tf.getRotation bt) in
  (msg.mkPose (msg.mkPoint (tf.getX o) (tf.getY o) (tf.getZ o)) q, ev).

(** The covariance loop: [covariance[j*6+i] = motion_cov(i,j)] for [i] and
    [j] below 6. *)
Definition fill_covariance (motion_cov : Eigen.MatrixXd) (cov : msg.Covariance)
  : msg.Covariance :=
  fold_left
    (fun c i =>
       fold_left (fun c j => array_set c (j * 6 + i) (motion_cov i j)) (seq 0 6) c)
    (seq 0 6) cov.

(** The NaN test of [process] on the seven numbers of the sensor pose. *)
Definition has_nan (sensor_pose : tf.Transform) : bool :=
  let o := tf.getOrigin sensor_pose in
  let q := tf.getRotation sensor_pose in
  isnan (tf.getX o) || isnan (tf.getY o) || isnan (tf.getZ o)
  || isnan (tf.qx q) || isnan (tf.qy q) || isnan (tf.qz q) || isnan (tf.qw q).

(** [dt] of [process]. *)
Definition elapsed (last_time : ros.Time) (stamp : ros.Time) : double :=
  if ros.isZero last_time then 0 else ros.toSec (ros.Time_sub stamp last_time).

(** The odometry and pose messages as [process] creates them, before the
    status is looked at: headers set, everything else at its default. *)
Definition new_odom_msg (s : OdometerBase) (fr : Frame) : msg.Odometry :=
  msg.mkOdometry
    (msg.mkHeader (msg.stamp (msg.image_header (image_msg fr))) (odom_frame_id_ s))
    (base_link_frame_id_ s)
    (msg.odom_pose msg.Odometry_default) (msg.odom_twist msg.Odometry_default).

Definition new_pose_msg (s : OdometerBase) (fr : Frame) : msg.PoseStamped :=
  msg.mkPoseStamped
    (msg.mkHeader (msg.stamp (msg.image_header (image_msg fr))) (base_link_frame_id_ s))
    msg.Pose_default.

Section Process.

Variable lm : Libm.

(** [delta_base_transform] of [process]. *)
Definition delta_base_transform (current_base_to_sensor sensor_motion : tf.Transform)
  : tf.Transform :=
  tf.mul (tf.mul current_base_to_sensor sensor_motion) (tf.inverse current_base_to_sensor).

(** The twist block of [process], entered when [dt > 0.0]. *)
Definition fill_twist (current_base_to_sensor : tf.Transform) (rd : fovis.Readings)
           (dt : double) (m : msg.TwistWithCovariance) : msg.TwistWithCovariance :=
  let sensor_motion := eigenToTF (fovis.getMotionEstimate rd) in
  let delta := delta_base_transform current_base_to_sensor sensor_motion in
  let lin := msg.mkVector3 (tf.getX (tf.getOrigin delta) / dt)
                           (tf.getY (tf.getOrigin delta) / dt)
                           (tf.getZ (tf.getOrigin delta) / dt) in
  let delta_rot := tf.getRotation delta in
  let angle := tf.getAngle lm delta_rot in
  let axis := tf.getAxis lm delta_rot in
  let angular_twist := tf.vdiv (tf.scale axis angle) dt in
  let ang := msg.mkVector3 (tf.getX angular_twist) (tf.getY angular_twist)
                           (tf.getZ angular_twist) in
  msg.mkTwistWithCovariance (msg.mkTwist lin ang)
    (fill_covariance (fovis.getMotionEstimateCov rd) (msg.twist_covariance m)).

(** The info message at the end of [process]. *)
Definition make_info (fr : Frame) : msg.FovisInfo :=
  let rd := readings fr in
  let status := fovis.getMotionEstimateStatus rd in
  msg.mkFovisInfo
    (msg.mkHeader (msg.stamp (msg.image_header (image_msg fr))) EmptyString)
    (fovis.getChangeReferenceFrames rd)
    (fovis.getFastThreshold rd)
    (fovis.getNumDetectedKeypoints rd)
    (fovis.getNumKeypoints rd)
    (map fst (fovis.getLevels rd))
    (map snd (fovis.getLevels rd))
    (fovis.code status)
    (fovis.MotionEstimateStatusCodeStrings status)
    (fovis.getNumMatches rd)
    (fovis.getNumInliers rd)
    (fovis.getNumReprojectionFailures rd)
    (fovis.isMotionEstimateValid rd)
    (wall_elapsed fr).

(** The three publications every frame ends with unless it returned
    early. *)
Definition publish_all (odom_msg : msg.Odometry) (pose_msg : msg.PoseStamped)
           (fr : Frame) : list Event :=
  [odom_pub_publish odom_msg; pose_pub_publish pose_msg; info_pub_publish (make_info fr)].

(** The branch of [process] for [status == fovis::SUCCESS]. *)
Definition on_success (s : OdometerBase) (fr : Frame)
           (odom_msg : msg.Odometry) (pose_msg : msg.PoseStamped)
  : OdometerBase * list Event :=
  let stamp := msg.stamp (msg.image_header (image_msg fr)) in
  let rd := readings fr in
  let sensor_pose := eigenToTF (fovis.getPose rd) in
  let '(s, current_base_to_sensor, ev_tf) :=
    getBaseToSensorTransform s (tf_listener fr) (now_lookup fr) stamp
      (msg.frame_id (msg.image_header (image_msg fr))) tf.StampedTransform_default in
  if has_nan sensor_pose then
    let s := set_initial_base_to_sensor s
               (tf.mkStampedTransform
                  (tf.mul (base_transform_ s) (tf.data current_base_to_sensor))
                  stamp (odom_frame_id_ s) (base_link_frame_id_ s)) in
    let s := set_visual_odometer s None in
    let s := set_reset_odometer s true in
    (s, ev_tf ++ [ROS_LOG ERROR NaN_in_fovis_tf])
  else
    let bt := tf.mul (tf.mul (tf.data (initial_base_to_sensor_ s)) sensor_pose)
                     (tf.inverse (tf.data current_base_to_sensor)) in
    let bt := tf.setOrigin bt
                (tf.scale (tf.getOrigin bt) (translation_correction_factor_ s)) in
    let s := set_base_transform s bt in
    let ev_send :=
      if publish_tf_ s
      then [sendTransform (tf.mkStampedTransform (base_transform_ s) stamp
                             (odom_frame_id_ s) (base_link_frame_id_ s))]
      else [] in
    let (pose, ev_pose) := poseTFToMsg (base_transform_ s) in
    let pose_msg := msg.mkPoseStamped (msg.ps_header pose_msg) pose in
    let dt := elapsed (last_time_ s) stamp in
    let twist :=
      if dgt dt 0
      then fill_twist (tf.data current_base_to_sensor) rd dt (msg.odom_twist odom_msg)
      else msg.odom_twist odom_msg in
    let odom_msg :=
      msg.mkOdometry (msg.odom_header odom_msg) (msg.child_frame_id odom_msg)
        (msg.mkPoseWithCovariance pose (msg.pose_covariance (msg.odom_pose odom_msg)))
        twist in
    let s := set_last_time s stamp in
    let s := set_last_published_tf_time s stamp in
    (s, ev_tf ++ ev_send ++ ev_pose ++ publish_all odom_msg pose_msg fr).

(** The branch of [process] for every other status. *)
Definition on_failure (s : OdometerBase) (fr : Frame)
           (odom_msg : msg.Odometry) (pose_msg : msg.PoseStamped)
  : OdometerBase * list Event :=
  let status := fovis.getMotionEstimateStatus (readings fr) in
  (set_last_time s ros.Time_zero,
   ROS_LOG WARN (odometry_failed (fovis.MotionEstimateStatusCodeStrings status))
   :: publish_all odom_msg pose_msg fr).

(** [process].  [None] is a failed [ROS_ASSERT], which ends the node. *)
Definition process (s : OdometerBase) (fr : Frame) : option (OdometerBase * list Event) :=
  let first_run := match visual_odometer_ s with None => true | Some _ => false end in
  let (s, ev_init) := if first_run then initOdometer s fr else (s, []) in
  match visual_odometer_ s, depth_source_ s with
  | Some _, Some _ =>
      if negb (cv_step fr =? msg.width (image_msg fr))%Z then None
      else
        let ev_features :=
          if negb first_run && (0 <? features_subscribers fr)%Z
          then [features_pub_publish (msg.image_header (image_msg fr))]
          else [] in
        let odom_msg := new_odom_msg s fr in
        let pose_msg := new_pose_msg s fr in
        let (s, ev) :=
          if fovis.is_success (fovis.getMotionEstimateStatus (readings fr))
          then on_success s fr odom_msg pose_msg
          else on_failure s fr odom_msg pose_msg in
        Some (s, ev_init ++ ev_features ++ ev)
  | _, _ => None
  end.

(** A run of [process] over successive frames. *)
Fixpoint run (s : OdometerBase) (frames : list Frame)
  : option (OdometerBase * list (list Event)) :=
  match frames with
  | [] => Some (s, [])
  | fr :: rest =>
      match process s fr with
      | None => None
      | Some (s', ev) =>
          match run s' rest with
          | None => None
          | Some (s'', evs) => Some (s'', ev :: evs)
          end
      end
  end.

End Process.

(** * Reading a run *)

(** The messages and transforms consumers receive; log lines and the
    feature image are not among them. *)
Definition is_output (e : Event) : bool :=
  match e with
  | sendTransform _ | odom_pub_publish _ | pose_pub_publish _ | info_pub_publish _ => true
  | features_pub_publish _ | ROS_LOG _ _ => false
  end.

Definition outputs (ev : list Event) : list Event := filter is_output ev.

Definition is_warning (e : Event) : bool :=
  match e with ROS_LOG WARN (tf_not_available _ _) => true | _ => false end.

(** The body-to-sensor offset a lookup yields. *)
Definition offset (s : OdometerBase) (listener : TransformListener)
           (sensor_frame_id : string) : tf.Transform :=
  if canTransform listener (base_link_frame_id_ s) sensor_frame_id ros.Time_zero
  then tf.data (lookupTransform listener (base_link_frame_id_ s) sensor_frame_id ros.Time_zero)
  else tf.identity.

(** The anchor in force while a frame is processed: looked up on the very
    first run, kept otherwise. *)
Definition anchor (s : OdometerBase) (fr : Frame) : tf.Transform :=
  match visual_odometer_ s with
  | None =>
      if reset_odometer_ s then tf.data (initial_base_to_sensor_ s)
      else offset s (tf_listener fr) (msg.frame_id (msg.ci_header (info_msg fr)))
  | Some _ => tf.data (initial_base_to_sensor_ s)
  end.

(** [ROS_ASSERT]s of [process] that depend on the caller. *)
Definition asserts_hold (s : OdometerBase) (fr : Frame) : Prop :=
  depth_source_ s <> None /\ cv_step fr = msg.width (image_msg fr).

(** Two states that differ at most in the throttle of the warning. *)
Definition same_but_throttle (s s' : OdometerBase) : Prop :=
  exists h, s' = set_throttle_last_hit s h.

(** What neither initialisation nor a lookup touches. *)
Record kept (s s' : OdometerBase) : Prop := mkKept {
  kept_depth_source : depth_source_ s' = depth_source_ s;
  kept_options : visual_odometer_options_ s' = visual_odometer_options_ s;
  kept_last_time : last_time_ s' = last_time_ s;
  kept_last_published : last_published_tf_time_ s' = last_published_tf_time_ s;
  kept_base_transform : base_transform_ s' = base_transform_ s;
  kept_factor : translation_correction_factor_ s' = translation_correction_factor_ s;
  kept_odom_frame_id : odom_frame_id_ s' = odom_frame_id_ s;
  kept_base_link_frame_id : base_link_frame_id_ s' = base_link_frame_id_ s;
  kept_publish_tf : publish_tf_ s' = publish_tf_ s
}.

(** The state in which [process] reaches its assertions, with the events
    of a first run. *)
Definition entry (s : OdometerBase) (fr : Frame) : OdometerBase * list Event :=
  match visual_odometer_ s with
  | None => initOdometer s fr
  | Some _ => (s, [])
  end.

Definition features_events (s : OdometerBase) (fr : Frame) : list Event :=
  match visual_odometer_ s with
  | None => []
  | Some _ =>
      if (0 <? features_subscribers fr)%Z
      then [features_pub_publish (msg.image_header (image_msg fr))]
      else []
  end.

(** The body pose [process] stores on a valid frame. *)
Definition body_pose (anchor sensor_pose current : tf.Transform) (k : double)
  : tf.Transform :=
  let t := tf.mul (tf.mul anchor sensor_pose) (tf.inverse current) in
  tf.setOrigin t (tf.scale (tf.getOrigin t) k).

Definition frame_stamp (fr : Frame) : ros.Time :=
  msg.stamp (msg.image_header (image_msg fr)).

Definition frame_id_of (fr : Frame) : string :=
  msg.frame_id (msg.image_header (image_msg fr)).

Definition sensor_pose_of (fr : Frame) : tf.Transform :=
  eigenToTF (fovis.getPose (readings fr)).

Definition succeeded (fr : Frame) : bool :=
  fovis.is_success (fovis.getMotionEstimateStatus (readings fr)).

Definition no_twist : msg.TwistWithCovariance :=
  msg.mkTwistWithCovariance msg.Twist_default msg.Covariance_default.

Definition frame_status (fr : Frame) : fovis.MotionEstimateStatusCode :=
  fovis.getMotionEstimateStatus (readings fr).

(** ** A concrete scenario

    No parameter is set and no transform is available, so both offsets are
    the identity.  Frame 1 initialises (the estimator has no data yet),
    frame 2 reports a pose one metre along X, frame 3, half a second
    later, one metre more. *)
Module Scenario.

Definition params : ParamServer := fun _ => None.

Definition listener : TransformListener :=
  mkTransformListener (fun _ _ _ => false) (fun _ _ _ => tf.StampedTransform_default).

Definition translation (tx ty tz : double) : Eigen.Isometry3d :=
  Eigen.mkIsometry3d Eigen.Matrix3d_identity (Eigen.mkVector3d tx ty tz).

(** A covariance that is not symmetric: entry (i, j) is 10 i + j. *)
Definition cov : Eigen.MatrixXd :=
  fun i j => double_of_Z (Z.of_nat (10 * i + j)).

Definition readings_of (status : fovis.MotionEstimateStatusCode)
           (pose motion : Eigen.Isometry3d) : fovis.Readings :=
  fovis.mkReadings status pose motion cov false 20 100 80 [(60, 50); (40, 30)]%Z
                   50 40 1 (fovis.is_success status).

Definition frame (sec nsec : Z) (status : fovis.MotionEstimateStatusCode)
           (pose motion : Eigen.Isometry3d) : Frame :=
  mkFrame (msg.mkImage (msg.mkHeader (ros.mkTime sec nsec) "camera") 640)
          (msg.mkCameraInfo (msg.mkHeader (ros.mkTime sec nsec) "camera")
                            320 240 500 500 640 480)
          640 (readings_of status pose motion) listener
          (ros.mkTime sec nsec) (ros.mkTime sec nsec) 0 0x1p-7.

Definition start : OdometerBase := setDepthSource (OdometerBase_new params []) 0.

Definition frame1 : Frame :=
  frame 1 0 fovis.NO_DATA (translation 0 0 0) (translation 0 0 0).
Definition frame2 : Frame :=
  frame 2 0 fovis.SUCCESS (translation 1 0 0) (translation 1 0 0).
Definition frame3 : Frame :=
  frame 2 500000000 fovis.SUCCESS (translation 2 0 0) (translation 1 0 0).

(** The state a run leaves, the start state if an assertion failed. *)
Definition after (s : OdometerBase) (frames : list Frame) : OdometerBase :=
  match run Fdlibm.libm s frames with
  | Some (s', _) => s'
  | None => s
  end.

(** An estimate whose translation overflowed to infinity along X. *)
Definition frame_inf : Frame :=
  frame 2 0 fovis.SUCCESS (translation infinity 0 0) (translation 1 0 0).

(** An estimate with a NaN in its translation. *)
Definition frame_nan : Frame :=
  frame 2 0 fovis.SUCCESS (translation nan 0 0) (translation 1 0 0).

(** An incremental rotation by 120 degrees about (-1, -1, -1), a
    permutation of the axes. *)
Definition turn : Eigen.Isometry3d :=
  Eigen.mkIsometry3d (Eigen.mkMatrix3d 0 1 0 0 0 1 1 0 0) (Eigen.mkVector3d 0 0 0).

Definition frame_turn : Frame :=
  frame 2 500000000 fovis.SUCCESS (translation 1 0 0) turn.

(** The start state with [tf_factor] set to 2.0. *)
Definition params2 : ParamServer :=
  fun name => if String.eqb name "tf_factor" then Some (TypeDouble 2) else None.

Definition start2 : OdometerBase := setDepthSource (OdometerBase_new params2 []) 0.

End Scenario.

(** One call of [getBaseToSensorTransform]. *)
Record Lookup : Set := mkLookup {
  lk_listener : TransformListener;
  lk_now : ros.Time;
  lk_stamp : ros.Time;
  lk_sensor_frame_id : string;
  lk_base_to_sensor : tf.StampedTransform
}.

Definition lookup (s : OdometerBase) (c : Lookup)
  : OdometerBase * tf.StampedTransform * list Event :=
  getBaseToSensorTransform s (lk_listener c) (lk_now c) (lk_stamp c)
    (lk_sensor_frame_id c) (lk_base_to_sensor c).

(** Successive lookups, with the clock readings at which the warning came
    out. *)
Fixpoint lookups (s : OdometerBase) (calls : list Lookup) : OdometerBase * list double :=
  match calls with
  | [] => (s, [])
  | c :: rest =>
      let '(s', _, ev) := lookup s c in
      let (s'', times) := lookups s' rest in
      (s'', (if existsb is_warning ev then [ros.Time_toSec (lk_now c)] else []) ++ times)
  end.

(** Each reading is at least ten seconds after the one before it. *)
Fixpoint spaced (last : double) (times : list double) : Prop :=
  match times with
  | [] => True
  | t :: rest => dle (last + 10) t = true /\ spaced t rest
  end.

(** A listener that answers every query with what [l] says for
    [ros::Time()]. *)
Definition latest_only (l : TransformListener) : TransformListener :=
  mkTransformListener (fun target source _ => canTransform l target source ros.Time_zero)
                      (fun target source _ => lookupTransform l target source ros.Time_zero).

Definition with_listener (fr : Frame) (l : TransformListener) : Frame :=
  mkFrame (image_msg fr) (info_msg fr) (cv_step fr) (readings fr) l
          (now_init fr) (now_lookup fr) (features_subscribers fr) (wall_elapsed fr).

Definition state1 : OdometerBase := Scenario.after Scenario.start [Scenario.frame1].
Definition state2 : OdometerBase :=
  Scenario.after Scenario.start [Scenario.frame1; Scenario.frame2].

(** A frame on which nothing reaches the consumers although the status
    is success and the sensor pose holds a NaN. *)
Definition nan_suppressed (fr : Frame) (ev : list Event) : Prop :=
  succeeded fr = true -> has_nan (sensor_pose_of fr) = true -> outputs ev = [].

Definition state1_factor2 : OdometerBase :=
  Scenario.after Scenario.start2 [Scenario.frame1].

(** A listener that has a transform for every time but [ros::Time()]. *)
Definition listener_at_stamps : TransformListener :=
  mkTransformListener
    (fun _ _ t => negb (ros.isZero t))
    (fun _ _ t =>
       if ros.isZero t then tf.StampedTransform_default
       else tf.mkStampedTransform
              (tf.mkTransform tf.Matrix_identity (tf.mkVector3 1 2 3)) t
              "/base_link" "camera").

(** ** The entry points as calls *)

(** [getOptions]. *)
Definition getOptions (s : OdometerBase) : fovis.VisualOdometryOptions :=
  visual_odometer_options_ s.

(** A call into the class from outside: the four entry points. *)
Inductive Call : Set :=
| call_setDepthSource (source : nat)
| call_processReinitFovis
| call_process (fr : Frame)
| call_publishLastKnownTf (now1 now2 : ros.Time).

Definition step (lm : Libm) (s : OdometerBase) (c : Call)
  : option (OdometerBase * list Event) :=
  match c with
  | call_setDepthSource source => Some (setDepthSource s source, [])
  | call_processReinitFovis => Some (processReinitFovis s)
  | call_process fr => process lm s fr
  | call_publishLastKnownTf now1 now2 => Some (publishLastKnownTf s now1 now2)
  end.

(** A series of calls, ended by the first failed assertion. *)
Fixpoint calls (lm : Libm) (s : OdometerBase) (cs : list Call)
  : option (OdometerBase * list Event) :=
  match cs with
  | [] => Some (s, [])
  | c :: rest =>
      match step lm s c with
      | None => None
      | Some (s', ev) =>
          match calls lm s' rest with
          | None => None
          | Some (s'', ev') => Some (s'', ev ++ ev')
          end
      end
  end.

(** What [loadParams] sets and nothing changes afterwards. *)
Record same_configuration (s s' : OdometerBase) : Prop := mkSameConfiguration {
  cfg_options : visual_odometer_options_ s' = visual_odometer_options_ s;
  cfg_factor : translation_correction_factor_ s' = translation_correction_factor_ s;
  cfg_odom_frame_id : odom_frame_id_ s' = odom_frame_id_ s;
  cfg_base_link_frame_id : base_link_frame_id_ s' = base_link_frame_id_ s;
  cfg_publish_tf : publish_tf_ s' = publish_tf_ s
}.

(** A reset is only pending while there is no estimator. *)
Definition reset_pending_without_estimator (s : OdometerBase) : Prop :=
  reset_odometer_ s = true -> visual_odometer_ s = None.

Definition is_features (e : Event) : bool :=
  match e with features_pub_publish _ => true | _ => false end.

(** A series of calls on a new object: the depth source, a frame, an
    early keep-alive, a frame, an operator's reinitialisation, a frame
    with a NaN, a keep-alive. *)
Definition example_calls : list Call :=
  [call_setDepthSource 0;
   call_process Scenario.frame1;
   call_publishLastKnownTf (ros.mkTime 1 500000000) (ros.mkTime 1 500000001);
   call_process Scenario.frame2;
   call_processReinitFovis;
   call_setDepthSource 1;
   call_process Scenario.frame_nan;
   call_publishLastKnownTf (ros.mkTime 20 0) (ros.mkTime 20 1)].

(** The estimator restarted: a success at the identity pose, one second
    after frame 3. *)
Definition frame_restart : Frame :=
  Scenario.frame 3 500000000 fovis.SUCCESS
    (Scenario.translation 0 0 0) (Scenario.translation 0 0 0).

(** Whether a key holds a dash. *)
Fixpoint has_dash (key : string) : bool :=
  match key with
  | EmptyString => false
  | String c rest => Ascii.eqb c "-"%char || has_dash rest
  end.

(** ** A mounted camera *)

(** The camera half a metre ahead of the body origin and a quarter metre
    above it, yawed a quarter turn to the left. *)
Definition mount : tf.Transform :=
  tf.mkTransform
    (tf.mkMatrix3x3 (tf.mkVector3 0 (-1) 0) (tf.mkVector3 1 0 0) (tf.mkVector3 0 0 1))
    (tf.mkVector3 0.5 0 0.25).

(** A mount at the body origin yawed by 160 degrees, given as a unit
    quaternion rounded to doubles. *)
Definition yawed_mount : tf.Transform :=
  tf.Transform_of (tf.mkQuaternion 0 0 0.984807753012208 0.17364817766693041)
                  (tf.mkVector3 0 0 0).

(** A listener that always has the transform [t]. *)
Definition listener_of (t : tf.Transform) : TransformListener :=
  mkTransformListener
    (fun _ _ _ => true)
    (fun target source time => tf.mkStampedTransform t time target source).

Definition mounted (t : tf.Transform) (fr : Frame) : Frame :=
  with_listener fr (listener_of t).

(** A quarter turn about the sensor's X axis, with a translation. *)
Definition quarter_turn_x (tx ty tz : double) : Eigen.Isometry3d :=
  Eigen.mkIsometry3d (Eigen.mkMatrix3d 1 0 0 0 0 (-1) 0 1 0) (Eigen.mkVector3d tx ty tz).

(** A pose one metre along the sensor's X axis, rolled a quarter turn. *)
Definition frame_rolled : Frame :=
  Scenario.frame 2 0 fovis.SUCCESS (quarter_turn_x 1 0 0) (quarter_turn_x 1 0 0).

(** Half a second after frame 2: the sensor rolled a quarter turn on the
    spot. *)
Definition frame_roll : Frame :=
  Scenario.frame 2 500000000 fovis.SUCCESS (quarter_turn_x 1 0 0) (quarter_turn_x 0 0 0).

(** Half a second after frame 2: no motion at all. *)
Definition frame_still : Frame :=
  Scenario.frame 2 500000000 fovis.SUCCESS
    (Scenario.translation 1 0 0) (Scenario.translation 0 0 0).

(** The states of the scenario under a mount. *)
Definition mounted_state1 (t : tf.Transform) (s : OdometerBase) : OdometerBase :=
  Scenario.after s [mounted t Scenario.frame1].

Definition mounted_state2 (t : tf.Transform) (s : OdometerBase) : OdometerBase :=
  Scenario.after s [mounted t Scenario.frame1; mounted t Scenario.frame2].

Definition state2_factor2 : OdometerBase :=
  Scenario.after Scenario.start2 [Scenario.frame1; Scenario.frame2].

(** A frame on which [process] stores and reports the given pose. *)
Definition reports (s : OdometerBase) (fr : Frame)
           (position : msg.Point) (orientation : msg.Quaternion) : Prop :=
  exists s' ev o p,
    process Fdlibm.libm s fr = Some (s', ev)
    /\ In (odom_pub_publish o) (outputs ev)
    /\ In (pose_pub_publish p) (outputs ev)
    /\ msg.pose (msg.odom_pose o) = msg.mkPose position orientation
    /\ msg.ps_pose p = msg.mkPose position orientation
    /\ tf.getOrigin (base_transform_ s')
       = tf.mkVector3 (msg.pt_x position) (msg.pt_y position) (msg.pt_z position).

(** A frame on which [process] reports the given twist. *)
Definition reports_twist (s : OdometerBase) (fr : Frame)
           (linear angular : msg.Vector3) : Prop :=
  exists s' ev m,
    process Fdlibm.libm s fr = Some (s', ev)
    /\ In (odom_pub_publish m) ev
    /\ msg.twist (msg.odom_twist m) = msg.mkTwist linear angular.

(** * Proofs *)

(** ** The structure of a frame *)

Lemma same_but_throttle_refl s : same_but_throttle s s.
Proof. exists (throttle_last_hit s). destruct s; reflexivity. Qed.

Lemma outputs_app a b : outputs (a ++ b) = outputs a ++ outputs b.
Proof. apply filter_app. Qed.

Lemma warn_throttle_spec s now text :
  same_but_throttle s (fst (warn_throttle s now text))
  /\ outputs (snd (warn_throttle s now text)) = [].
Proof.
  unfold warn_throttle.
  destruct (dle _ _); cbn [fst snd].
  - split; [eexists; reflexivity | reflexivity].
  - split; [apply same_but_throttle_refl | reflexivity].
Qed.

Lemma getBaseToSensorTransform_spec s listener now stamp fid b :
  exists s' t ev,
    getBaseToSensorTransform s listener now stamp fid b = (s', t, ev)
    /\ same_but_throttle s s'
    /\ tf.data t = offset s listener fid
    /\ outputs ev = [].
Proof.
  unfold getBaseToSensorTransform, offset.
  destruct (canTransform _ _ _ _).
  - do 3 eexists. split; [reflexivity|].
    split; [apply same_but_throttle_refl|]. split; reflexivity.
  - destruct (warn_throttle_spec s now (tf_not_available (base_link_frame_id_ s) fid)) as [H1 H2].
    destruct (warn_throttle _ _ _) as [s' ev]. cbn [fst snd] in *.
    do 3 eexists. split; [reflexivity|].
    split; [exact H1|]. split; [reflexivity|].
    rewrite outputs_app, H2. reflexivity.
Qed.

Lemma kept_refl s : kept s s.
Proof. constructor; reflexivity. Qed.

Lemma kept_trans a b c : kept a b -> kept b c -> kept a c.
Proof.
  intros [] []; constructor; etransitivity; eassumption.
Qed.

Lemma same_but_throttle_kept s s' : same_but_throttle s s' -> kept s s'.
Proof. intros [h ->]. constructor; reflexivity. Qed.

Lemma initOdometer_spec s fr :
  exists s1 ev,
    initOdometer s fr = (s1, ev)
    /\ kept s s1
    /\ visual_odometer_ s1
       = Some (fovis.mkVisualOdometry (rosToFovis (info_msg fr)) (visual_odometer_options_ s))
    /\ reset_odometer_ s1 = false
    /\ (reset_odometer_ s = true -> initial_base_to_sensor_ s1 = initial_base_to_sensor_ s)
    /\ (reset_odometer_ s = false ->
        tf.data (initial_base_to_sensor_ s1)
        = offset s (tf_listener fr) (msg.frame_id (msg.ci_header (info_msg fr))))
    /\ outputs ev = [].
Proof.
  unfold initOdometer.
  set (vo := Some _).
  change (reset_odometer_ (set_visual_odometer s vo)) with (reset_odometer_ s).
  destruct (reset_odometer_ s) eqn:R; cbn [negb].
  - do 2 eexists. split; [reflexivity|].
    split; [constructor; reflexivity|].
    split; [reflexivity|].
    split; [reflexivity|].
    split; [reflexivity|].
    split; [discriminate|reflexivity].
  - destruct (getBaseToSensorTransform_spec (set_visual_odometer s vo) (tf_listener fr)
                (now_init fr) (msg.stamp (msg.ci_header (info_msg fr)))
                (msg.frame_id (msg.ci_header (info_msg fr)))
                (initial_base_to_sensor_ (set_visual_odometer s vo)))
      as (s' & t & ev & E & [h ->] & D & O).
    rewrite E. do 2 eexists. split; [reflexivity|].
    split; [constructor; reflexivity|].
    split; [reflexivity|].
    split; [exact R|].
    split; [discriminate|].
    split; [intros _; exact D|].
    rewrite outputs_app, O. reflexivity.
Qed.

Lemma entry_spec s fr :
  exists s1 ev,
    entry s fr = (s1, ev)
    /\ kept s s1
    /\ visual_odometer_ s1 <> None
    /\ tf.data (initial_base_to_sensor_ s1) = anchor s fr
    /\ outputs ev = [].
Proof.
  unfold entry, anchor.
  destruct (visual_odometer_ s) eqn:V.
  - do 2 eexists. split; [reflexivity|].
    split; [apply kept_refl|].
    split; [rewrite V; discriminate|].
    split; reflexivity.
  - destruct (initOdometer_spec s fr) as (s1 & ev & E & K & V1 & R1 & A1 & A2 & O).
    do 2 eexists. split; [exact E|].
    split; [exact K|]. split; [rewrite V1; discriminate|].
    split; [|exact O].
    destruct (reset_odometer_ s).
    + rewrite A1; reflexivity.
    + apply A2; reflexivity.
Qed.

Section ProcessFacts.

Variable lm : Libm.

(** [process] once its assertions hold. *)
Lemma process_eq s fr :
  asserts_hold s fr ->
  process lm s fr =
  Some (let s1 := fst (entry s fr) in
        let r := if fovis.is_success (fovis.getMotionEstimateStatus (readings fr))
                 then on_success lm s1 fr (new_odom_msg s1 fr) (new_pose_msg s1 fr)
                 else on_failure s1 fr (new_odom_msg s1 fr) (new_pose_msg s1 fr) in
        (fst r, snd (entry s fr) ++ features_events s fr ++ snd r)).
Proof.
  intros [D W].
  destruct (entry_spec s fr) as (s1 & ev & E & K & V1 & _ & _).
  unfold process.
  assert (E' : (if match visual_odometer_ s with None => true | Some _ => false end
                then initOdometer s fr else (s, [])) = (s1, ev)).
  { unfold entry in E. destruct (visual_odometer_ s); exact E. }
  rewrite E'. rewrite E. cbn [fst snd].
  destruct (visual_odometer_ s1) eqn:V; [|congruence].
  rewrite (kept_depth_source _ _ K).
  destruct (depth_source_ s) eqn:DS; [|congruence].
  rewrite W, Z.eqb_refl. cbn [negb].
  assert (F : (if negb match visual_odometer_ s with None => true | Some _ => false end
                  && (0 <? features_subscribers fr)%Z
               then [features_pub_publish (msg.image_header (image_msg fr))] else [])
              = features_events s fr).
  { unfold features_events. destruct (visual_odometer_ s); reflexivity. }
  rewrite F.
  destruct (fovis.is_success _).
  - destruct (on_success _ _ _ _ _); reflexivity.
  - destruct (on_failure _ _ _ _); reflexivity.
Qed.

Lemma features_events_outputs s fr : outputs (features_events s fr) = [].
Proof.
  unfold features_events.
  destruct (visual_odometer_ s); [destruct (0 <? _)%Z|]; reflexivity.
Qed.

End ProcessFacts.

Lemma quaternionTFToMsg_outputs q : outputs (snd (quaternionTFToMsg q)) = [].
Proof. unfold quaternionTFToMsg. destruct (dgt _ _); reflexivity. Qed.

Lemma poseTFToMsg_outputs t : outputs (snd (poseTFToMsg t)) = [].
Proof.
  unfold poseTFToMsg.
  pose proof (quaternionTFToMsg_outputs (tf.getRotation t)) as H.
  destruct (quaternionTFToMsg _); exact H.
Qed.

Section SuccessFacts.

Variable lm : Libm.

(** The success branch on a sensor pose with a NaN in it. *)
Lemma on_success_nan s fr om pm :
  has_nan (sensor_pose_of fr) = true ->
  exists s0 ev,
    same_but_throttle s s0
    /\ on_success lm s fr om pm
       = (set_reset_odometer
            (set_visual_odometer
               (set_initial_base_to_sensor s0
                  (tf.mkStampedTransform
                     (tf.mul (base_transform_ s)
                             (offset s (tf_listener fr) (frame_id_of fr)))
                     (frame_stamp fr) (odom_frame_id_ s) (base_link_frame_id_ s)))
               None)
            true, ev)
    /\ outputs ev = [].
Proof.
  intros N. unfold on_success.
  destruct (getBaseToSensorTransform_spec s (tf_listener fr) (now_lookup fr)
              (frame_stamp fr) (frame_id_of fr) tf.StampedTransform_default)
    as (s0 & t & ev & E & T & D & O).
  unfold frame_stamp, frame_id_of in E. rewrite E.
  unfold sensor_pose_of in N. rewrite N.
  exists s0. eexists. split; [exact T|].
  destruct T as [h ->]. rewrite D.
  split; [reflexivity|].
  rewrite outputs_app, O. reflexivity.
Qed.

(** The success branch on a sensor pose without NaN. *)
Lemma on_success_valid s fr om pm :
  has_nan (sensor_pose_of fr) = false ->
  let current := offset s (tf_listener fr) (frame_id_of fr) in
  let bt := body_pose (tf.data (initial_base_to_sensor_ s)) (sensor_pose_of fr) current
              (translation_correction_factor_ s) in
  let dt := elapsed (last_time_ s) (frame_stamp fr) in
  let twist := if dgt dt 0
               then fill_twist lm current (readings fr) dt (msg.odom_twist om)
               else msg.odom_twist om in
  let odom := msg.mkOdometry (msg.odom_header om) (msg.child_frame_id om)
                (msg.mkPoseWithCovariance (fst (poseTFToMsg bt))
                   (msg.pose_covariance (msg.odom_pose om)))
                twist in
  let pose := msg.mkPoseStamped (msg.ps_header pm) (fst (poseTFToMsg bt)) in
  exists s0 ev,
    same_but_throttle s s0
    /\ on_success lm s fr om pm
       = (set_last_published_tf_time
            (set_last_time (set_base_transform s0 bt) (frame_stamp fr))
            (frame_stamp fr), ev)
    /\ outputs ev
       = (if publish_tf_ s
          then [sendTransform (tf.mkStampedTransform bt (frame_stamp fr)
                                 (odom_frame_id_ s) (base_link_frame_id_ s))]
          else [])
         ++ publish_all odom pose fr.
Proof.
  intros N current bt dt twist odom pose. unfold on_success.
  destruct (getBaseToSensorTransform_spec s (tf_listener fr) (now_lookup fr)
              (frame_stamp fr) (frame_id_of fr) tf.StampedTransform_default)
    as (s0 & t & ev & E & T & D & O).
  unfold frame_stamp, frame_id_of in E. rewrite E.
  unfold sensor_pose_of in N. rewrite N.
  exists s0.
  assert (T' := T). destruct T' as [h ->]. rewrite D.
  cbn [initial_base_to_sensor_ translation_correction_factor_ base_transform_ publish_tf_
       odom_frame_id_ base_link_frame_id_ last_time_
       set_throttle_last_hit set_base_transform].
  fold (frame_id_of fr). fold current. fold (sensor_pose_of fr).
  change (tf.setOrigin _ _) with bt.
  fold (frame_stamp fr). fold dt. fold twist.
  pose proof (poseTFToMsg_outputs bt) as P.
  destruct (poseTFToMsg bt) as [p evp]. cbn [fst snd] in *.
  eexists. split; [exact T|].
  split; [reflexivity|].
  rewrite !outputs_app, O, P.
  destruct (publish_tf_ s); reflexivity.
Qed.

Lemma on_failure_eq s fr om pm :
  on_failure s fr om pm
  = (set_last_time s ros.Time_zero,
     ROS_LOG WARN (odometry_failed
                     (fovis.MotionEstimateStatusCodeStrings
                        (fovis.getMotionEstimateStatus (readings fr))))
     :: publish_all om pm fr).
Proof. reflexivity. Qed.

End SuccessFacts.

Lemma new_odom_msg_kept s s1 fr : kept s s1 -> new_odom_msg s1 fr = new_odom_msg s fr.
Proof.
  intros K. unfold new_odom_msg.
  rewrite (kept_odom_frame_id _ _ K), (kept_base_link_frame_id _ _ K). reflexivity.
Qed.

Lemma new_pose_msg_kept s s1 fr : kept s s1 -> new_pose_msg s1 fr = new_pose_msg s fr.
Proof.
  intros K. unfold new_pose_msg. rewrite (kept_base_link_frame_id _ _ K). reflexivity.
Qed.

Lemma offset_kept s s1 listener fid : kept s s1 -> offset s1 listener fid = offset s listener fid.
Proof.
  intros K. unfold offset. rewrite (kept_base_link_frame_id _ _ K). reflexivity.
Qed.

Lemma In_outputs e ev : In e ev -> is_output e = true -> In e (outputs ev).
Proof. intros H O. apply filter_In. split; assumption. Qed.

(** [x <= 0] excludes [x > 0]. *)
Lemma dle_zero_not_dgt x : dle x 0 = true -> dgt x 0 = false.
Proof.
  unfold dle, dgt. rewrite leb_spec, ltb_spec.
  change (Prim2SF 0) with (S754_zero false).
  unfold SFleb, SFltb.
  destruct (Prim2SF x) as [sx| [|] | |[|] m e]; simpl; try discriminate; reflexivity.
Qed.

Section Frames.

Variable lm : Libm.

(** A failure frame, in full. *)
Lemma process_failure s fr :
  asserts_hold s fr ->
  succeeded fr = false ->
  exists s1 ev0,
    kept s s1 /\ outputs ev0 = []
    /\ process lm s fr
       = Some (set_last_time s1 ros.Time_zero,
               ev0 ++ ROS_LOG WARN (odometry_failed
                                      (fovis.MotionEstimateStatusCodeStrings
                                         (fovis.getMotionEstimateStatus (readings fr))))
                   :: publish_all (new_odom_msg s fr) (new_pose_msg s fr) fr).
Proof.
  intros A F. rewrite (process_eq lm s fr A).
  unfold succeeded in F. rewrite F.
  destruct (entry_spec s fr) as (s1 & ev & E & K & _ & _ & O).
  rewrite E. cbn [fst snd].
  rewrite (new_odom_msg_kept _ _ fr K), (new_pose_msg_kept _ _ fr K).
  exists s1, (ev ++ features_events s fr).
  split; [exact K|]. split.
  - rewrite outputs_app, O, features_events_outputs. reflexivity.
  - rewrite <- app_assoc. reflexivity.
Qed.

(** A success frame whose sensor pose holds a NaN, in full. *)
Lemma process_nan s fr :
  asserts_hold s fr ->
  succeeded fr = true ->
  has_nan (sensor_pose_of fr) = true ->
  exists s1 ev,
    kept s s1 /\ outputs ev = []
    /\ process lm s fr
       = Some (set_reset_odometer
                 (set_visual_odometer
                    (set_initial_base_to_sensor s1
                       (tf.mkStampedTransform
                          (tf.mul (base_transform_ s)
                                  (offset s (tf_listener fr) (frame_id_of fr)))
                          (frame_stamp fr) (odom_frame_id_ s) (base_link_frame_id_ s)))
                    None)
                 true, ev).
Proof.
  intros A S N. rewrite (process_eq lm s fr A).
  unfold succeeded in S. rewrite S.
  destruct (entry_spec s fr) as (s1 & ev & E & K & _ & _ & O).
  rewrite E. cbn [fst snd].
  destruct (on_success_nan lm s1 fr (new_odom_msg s1 fr) (new_pose_msg s1 fr) N)
    as (s0 & ev1 & T & E1 & O1).
  rewrite E1. cbn [fst snd].
  rewrite (kept_base_transform _ _ K), (offset_kept _ _ _ _ K),
    (kept_odom_frame_id _ _ K), (kept_base_link_frame_id _ _ K).
  exists s0, (ev ++ features_events s fr ++ ev1).
  split; [exact (kept_trans _ _ _ K (same_but_throttle_kept _ _ T))|].
  split; [|reflexivity].
  rewrite !outputs_app, O, O1, features_events_outputs. reflexivity.
Qed.

(** A success frame whose sensor pose holds no NaN, in full. *)
Lemma process_valid s fr :
  asserts_hold s fr ->
  succeeded fr = true ->
  has_nan (sensor_pose_of fr) = false ->
  let current := offset s (tf_listener fr) (frame_id_of fr) in
  let bt := body_pose (anchor s fr) (sensor_pose_of fr) current
              (translation_correction_factor_ s) in
  let dt := elapsed (last_time_ s) (frame_stamp fr) in
  let twist := if dgt dt 0
               then fill_twist lm current (readings fr) dt no_twist
               else no_twist in
  let odom := msg.mkOdometry (msg.mkHeader (frame_stamp fr) (odom_frame_id_ s))
                (base_link_frame_id_ s)
                (msg.mkPoseWithCovariance (fst (poseTFToMsg bt)) msg.Covariance_default)
                twist in
  let pose := msg.mkPoseStamped (msg.mkHeader (frame_stamp fr) (base_link_frame_id_ s))
                (fst (poseTFToMsg bt)) in
  exists s1 ev,
    kept s s1
    /\ process lm s fr
       = Some (set_last_published_tf_time
                 (set_last_time (set_base_transform s1 bt) (frame_stamp fr))
                 (frame_stamp fr), ev)
    /\ outputs ev
       = (if publish_tf_ s
          then [sendTransform (tf.mkStampedTransform bt (frame_stamp fr)
                                 (odom_frame_id_ s) (base_link_frame_id_ s))]
          else [])
         ++ publish_all odom pose fr.
Proof.
  intros A S N current bt dt twist odom pose. rewrite (process_eq lm s fr A).
  unfold succeeded in S. rewrite S.
  destruct (entry_spec s fr) as (s1 & ev & E & K & _ & An & O).
  rewrite E. cbn [fst snd].
  destruct (on_success_valid lm s1 fr (new_odom_msg s1 fr) (new_pose_msg s1 fr) N)
    as (s0 & ev1 & T & E1 & O1).
  rewrite E1. cbn [fst snd].
  rewrite An, (offset_kept _ _ _ _ K), (kept_factor _ _ K), (kept_last_time _ _ K) in *.
  rewrite (kept_publish_tf _ _ K), (kept_odom_frame_id _ _ K),
    (kept_base_link_frame_id _ _ K), (new_odom_msg_kept _ _ fr K),
    (new_pose_msg_kept _ _ fr K) in O1.
  exists s0, (ev ++ features_events s fr ++ ev1).
  split; [exact (kept_trans _ _ _ K (same_but_throttle_kept _ _ T))|].
  split; [reflexivity|].
  rewrite !outputs_app, O, O1, features_events_outputs. reflexivity.
Qed.

End Frames.

(** C7. On a frame whose estimator status is a failure code, [process]
    returns with the stored body pose [base_transform_] unchanged and
    [last_time_] reset to zero; it logs the failure with the status string,
    and publishes exactly the odometry message, the pose message and the
    info message: the first two carry the message defaults (zero position,
    all-zero quaternion, zero twist and covariance), the info message the
    status code and its string. *)
Theorem failure_frame_keeps_pose_and_publishes_defaults (lm : Libm) s fr :
  asserts_hold s fr ->
  succeeded fr = false ->
  exists s' ev,
    process lm s fr = Some (s', ev)
    /\ base_transform_ s' = base_transform_ s
    /\ last_time_ s' = ros.Time_zero
    /\ In (ROS_LOG WARN (odometry_failed
                           (fovis.MotionEstimateStatusCodeStrings (frame_status fr)))) ev
    /\ outputs ev = [odom_pub_publish (new_odom_msg s fr);
                     pose_pub_publish (new_pose_msg s fr);
                     info_pub_publish (make_info fr)]
    /\ msg.pose (msg.odom_pose (new_odom_msg s fr)) = msg.Pose_default
    /\ msg.odom_twist (new_odom_msg s fr) = no_twist
    /\ msg.ps_pose (new_pose_msg s fr) = msg.Pose_default
    /\ msg.motion_estimate_status_code (make_info fr) = fovis.code (frame_status fr)
    /\ msg.motion_estimate_status (make_info fr)
       = fovis.MotionEstimateStatusCodeStrings (frame_status fr).
Proof.
  intros A F.
  destruct (process_failure lm s fr A F) as (s1 & ev0 & K & O & E).
  do 2 eexists. split; [exact E|].
  split; [exact (kept_base_transform _ _ K)|].
  split; [reflexivity|].
  split; [apply in_or_app; right; left; reflexivity|].
  split; [rewrite outputs_app, O; reflexivity|].
  repeat split.
Qed.

Lemma failure_frame_witness :
  asserts_hold Scenario.start Scenario.frame1
  /\ succeeded Scenario.frame1 = false
  /\ exists s' ev,
      process Fdlibm.libm Scenario.start Scenario.frame1 = Some (s', ev)
      /\ base_transform_ s' = tf.identity
      /\ last_time_ s' = ros.Time_zero
      /\ outputs ev = [odom_pub_publish (new_odom_msg Scenario.start Scenario.frame1);
                       pose_pub_publish (new_pose_msg Scenario.start Scenario.frame1);
                       info_pub_publish (make_info Scenario.frame1)].
Proof.
  assert (A : asserts_hold Scenario.start Scenario.frame1)
    by (split; [discriminate | reflexivity]).
  assert (F : succeeded Scenario.frame1 = false) by reflexivity.
  split; [exact A|]. split; [exact F|].
  destruct (failure_frame_keeps_pose_and_publishes_defaults
              Fdlibm.libm Scenario.start Scenario.frame1 A F)
    as (s' & ev & E & B & L & _ & O & _).
  exists s', ev. repeat split; assumption.
Defined.

(** C6. When [last_time_] is zero (no baseline: nothing fused yet, or the
    previous frame failed) or the time since [last_time_] is not positive,
    [process] returns and every odometry message it publishes carries the
    default twist: zero linear and angular velocity and the 36 zeros of an
    untouched covariance. *)
Theorem no_velocity_without_positive_dt (lm : Libm) s fr :
  asserts_hold s fr ->
  ros.isZero (last_time_ s) = true
  \/ dle (ros.toSec (ros.Time_sub (frame_stamp fr) (last_time_ s))) 0 = true ->
  exists s' ev,
    process lm s fr = Some (s', ev)
    /\ forall m, In (odom_pub_publish m) ev -> msg.odom_twist m = no_twist.
Proof.
  intros A H.
  assert (D : dgt (elapsed (last_time_ s) (frame_stamp fr)) 0 = false).
  { unfold elapsed. destruct H as [Z | L].
    - rewrite Z. reflexivity.
    - destruct (ros.isZero _); [reflexivity | apply dle_zero_not_dgt, L]. }
  destruct (succeeded fr) eqn:S.
  - destruct (has_nan (sensor_pose_of fr)) eqn:N.
    + destruct (process_nan lm s fr A S N) as (s1 & ev & _ & O & E).
      do 2 eexists. split; [exact E|].
      intros m I. apply In_outputs in I; [|reflexivity].
      rewrite O in I. destruct I.
    + destruct (process_valid lm s fr A S N) as (s1 & ev & _ & E & O).
      do 2 eexists. split; [exact E|].
      intros m I. apply In_outputs in I; [|reflexivity].
      rewrite O, D in I.
      apply in_app_or in I. destruct I as [I | I].
      * destruct (publish_tf_ s); [destruct I as [I | []]; discriminate | destruct I].
      * destruct I as [I | [I | [I | []]]]; try discriminate.
        injection I as <-. reflexivity.
  - destruct (process_failure lm s fr A S) as (s1 & ev0 & _ & O & E).
    do 2 eexists. split; [exact E|].
    intros m I. apply In_outputs in I; [|reflexivity].
    rewrite outputs_app, O in I.
    destruct I as [I | [I | [I | []]]]; try discriminate.
    injection I as <-. reflexivity.
Qed.

(** The first success after the failed first frame: a pose, no velocity. *)
Lemma no_velocity_witness :
  asserts_hold (Scenario.after Scenario.start [Scenario.frame1]) Scenario.frame2
  /\ ros.isZero (last_time_ (Scenario.after Scenario.start [Scenario.frame1])) = true
  /\ exists s' ev,
      process Fdlibm.libm (Scenario.after Scenario.start [Scenario.frame1]) Scenario.frame2
      = Some (s', ev)
      /\ forall m, In (odom_pub_publish m) ev -> msg.odom_twist m = no_twist.
Proof.
  assert (A : asserts_hold (Scenario.after Scenario.start [Scenario.frame1]) Scenario.frame2)
    by (split; [vm_compute; discriminate | reflexivity]).
  assert (Z : ros.isZero (last_time_ (Scenario.after Scenario.start [Scenario.frame1])) = true)
    by (vm_compute; reflexivity).
  split; [exact A|]. split; [exact Z|].
  exact (no_velocity_without_positive_dt Fdlibm.libm _ Scenario.frame2 A (or_introl Z)).
Defined.

(** A difference of [d] nanoseconds exceeds [ros::Duration(9.0)] exactly
    when [d] exceeds nine thousand million. *)
Lemma Duration_gt_9 (d : Z) :
  ros.Duration_gt (ros.fromNSec d) ros.Duration_9 = true <-> (9000000000 < d)%Z.
Proof.
  unfold ros.Duration_gt, ros.fromNSec, ros.normalizeSecNSecSigned, ros.Duration_9.
  pose proof (Z.quot_rem' d 1000000000) as QR.
  assert (B : (d < 0 -> -1000000000 < Z.rem d 1000000000 <= 0)%Z)
    by (intros; pose proof (Z.rem_bound_pos_neg d 1000000000); lia).
  assert (B' : (0 <= d -> 0 <= Z.rem d 1000000000 < 1000000000)%Z)
    by (intros; apply Z.rem_bound_pos; lia).
  destruct (Z.rem d 1000000000 <? 0)%Z eqn:N; cbn [ros.dsec ros.dnsec].
  - apply Z.ltb_lt in N.
    destruct (9 <? Z.quot d 1000000000 - 1)%Z eqn:Q1.
    + apply Z.ltb_lt in Q1. split; [lia | reflexivity].
    + apply Z.ltb_ge in Q1.
      destruct (Z.quot d 1000000000 - 1 =? 9)%Z eqn:Q2; cbn [andb].
      * apply Z.eqb_eq in Q2. lia.
      * split; [discriminate | lia].
  - apply Z.ltb_ge in N.
    destruct (9 <? Z.quot d 1000000000)%Z eqn:Q1.
    + apply Z.ltb_lt in Q1. split; [lia | reflexivity].
    + apply Z.ltb_ge in Q1.
      destruct (Z.quot d 1000000000 =? 9)%Z eqn:Q2; cbn [andb].
      * apply Z.eqb_eq in Q2.
        destruct (0 <? Z.rem d 1000000000)%Z eqn:R.
        -- apply Z.ltb_lt in R. split; [lia | reflexivity].
        -- apply Z.ltb_ge in R. split; [discriminate | lia].
      * apply Z.eqb_neq in Q2. split; [discriminate|]. lia.
Qed.

(** C8. [publishLastKnownTf] broadcasts exactly when [publish_tf_] is set
    and more than 9.0 seconds lie between [last_published_tf_time_] and
    the current time.  When it does, it broadcasts one transform, the
    stored [base_transform_] stamped with the fresh current time, and
    records that time; otherwise it does nothing.  In either case the
    stored pose, [last_time_], the anchor, the estimator and every other
    member but [last_published_tf_time_] stay as they were. *)
Theorem keepalive_republishes_last_pose_after_9s s (now1 now2 : ros.Time) :
  let fires := publish_tf_ s = true
               /\ (9000000000 < ros.toNSec now1 - ros.toNSec (last_published_tf_time_ s))%Z in
  let r := publishLastKnownTf s now1 now2 in
  (fires ->
   r = (set_last_published_tf_time s now2,
        [sendTransform (tf.mkStampedTransform (base_transform_ s) now2
                          (odom_frame_id_ s) (base_link_frame_id_ s))]))
  /\ (~ fires -> r = (s, []))
  /\ base_transform_ (fst r) = base_transform_ s
  /\ last_time_ (fst r) = last_time_ s
  /\ initial_base_to_sensor_ (fst r) = initial_base_to_sensor_ s
  /\ visual_odometer_ (fst r) = visual_odometer_ s
  /\ reset_odometer_ (fst r) = reset_odometer_ s
  /\ translation_correction_factor_ (fst r) = translation_correction_factor_ s
  /\ depth_source_ (fst r) = depth_source_ s.
Proof.
  intros fires r. subst fires r. unfold publishLastKnownTf, ros.Time_sub.
  pose proof (Duration_gt_9 (ros.toNSec now1 - ros.toNSec (last_published_tf_time_ s))) as G.
  destruct (publish_tf_ s); cbn [andb].
  - destruct (ros.Duration_gt _ _).
    + split; [reflexivity|]. split; [|repeat split].
      intros H. exfalso. apply H. split; [reflexivity | apply G; reflexivity].
    + split; [|split; [reflexivity | repeat split]].
      intros [_ H]. apply G in H. discriminate.
  - split; [intros [H _]; discriminate|]. split; [reflexivity | repeat split].
Qed.

Lemma lookup_warning s c :
  let '(s', _, ev) := lookup s c in
  if existsb is_warning ev
  then dle (throttle_last_hit s + 10) (ros.Time_toSec (lk_now c)) = true
       /\ throttle_last_hit s' = ros.Time_toSec (lk_now c)
  else throttle_last_hit s' = throttle_last_hit s.
Proof.
  unfold lookup, getBaseToSensorTransform, warn_throttle.
  destruct (canTransform _ _ _ _); [reflexivity|].
  destruct (dle _ _) eqn:D; cbn; [split; reflexivity | reflexivity].
Qed.

Lemma lookups_spaced calls : forall s, spaced (throttle_last_hit s) (snd (lookups s calls)).
Proof.
  induction calls as [|c rest IH]; intros s; cbn [lookups].
  - exact I.
  - pose proof (lookup_warning s c) as W.
    destruct (lookup s c) as [[s' t] ev].
    specialize (IH s'). destruct (lookups s' rest) as [s'' times]. cbn [snd] in *.
    destruct (existsb is_warning ev).
    + destruct W as [D H]. rewrite H in IH. split; assumption.
    + rewrite W in IH. exact IH.
Qed.

Lemma process_returns lm s fr : asserts_hold s fr -> exists r, process lm s fr = Some r.
Proof. intros A. rewrite (process_eq lm s fr A). eexists. reflexivity. Qed.

(** C9. When the transform is not available, [getBaseToSensorTransform]
    returns with the identity in [base_to_sensor] ; the only state it
    touches is the throttle of its warning, and the warning comes out
    exactly when ten seconds have passed since the last one let through.
    Over any series of lookups the warnings are at least ten seconds
    apart, and [process] returns whatever the listener says. *)
Theorem missing_transform_degrades_to_identity s listener now stamp fid b :
  canTransform listener (base_link_frame_id_ s) fid ros.Time_zero = false ->
  (exists s' t ev,
      getBaseToSensorTransform s listener now stamp fid b = (s', t, ev)
      /\ tf.data t = tf.identity
      /\ same_but_throttle s s'
      /\ filter is_warning ev
         = (if dle (throttle_last_hit s + 10) (ros.Time_toSec now)
            then [ROS_LOG WARN (tf_not_available (base_link_frame_id_ s) fid)]
            else [])
      /\ outputs ev = [])
  /\ (forall calls, spaced (throttle_last_hit s) (snd (lookups s calls)))
  /\ (forall lm fr, asserts_hold s fr -> exists r, process lm s fr = Some r).
Proof.
  intros C. split; [|split].
  - unfold getBaseToSensorTransform, warn_throttle. rewrite C.
    destruct (dle _ _).
    + do 3 eexists. split; [reflexivity|]. split; [reflexivity|].
      split; [eexists; reflexivity|]. split; reflexivity.
    + do 3 eexists. split; [reflexivity|]. split; [reflexivity|].
      split; [apply same_but_throttle_refl|]. split; reflexivity.
  - intros calls. apply lookups_spaced.
  - intros lm fr A. apply process_returns, A.
Qed.

(** C10. The result of [getBaseToSensorTransform] does not depend on its
    [stamp] argument, nor on what the listener would answer for any time
    but [ros::Time()]: two listeners that agree there give the same
    result for any two stamps.  [process] therefore behaves the same when
    the listener is replaced by one that answers every query with the
    latest transform. *)
Theorem lookup_uses_latest_transform_not_stamp
        s listener listener' now (stamp stamp' : ros.Time) fid b :
  canTransform listener (base_link_frame_id_ s) fid ros.Time_zero
  = canTransform listener' (base_link_frame_id_ s) fid ros.Time_zero ->
  lookupTransform listener (base_link_frame_id_ s) fid ros.Time_zero
  = lookupTransform listener' (base_link_frame_id_ s) fid ros.Time_zero ->
  getBaseToSensorTransform s listener now stamp fid b
  = getBaseToSensorTransform s listener' now stamp' fid b
  /\ forall lm fr,
      process lm s fr = process lm s (with_listener fr (latest_only (tf_listener fr))).
Proof.
  intros C L. split.
  - unfold getBaseToSensorTransform. rewrite C, L. reflexivity.
  - intros lm fr. reflexivity.
Qed.

(** What the covariance loop leaves in an array of 36 zeros: slot [k]
    holds entry [(k mod 6, k / 6)]. *)
Lemma fill_covariance_default (mc : Eigen.MatrixXd) :
  fill_covariance mc msg.Covariance_default
  = map (fun k => mc (k mod 6)%nat (k / 6)%nat) (seq 0 36).
Proof. reflexivity. Qed.

Lemma fill_covariance_slot (mc : Eigen.MatrixXd) (i j : nat) :
  (i < 6)%nat -> (j < 6)%nat ->
  array_get (fill_covariance mc msg.Covariance_default) (j * 6 + i) = mc i j.
Proof.
  intros Hi Hj. rewrite fill_covariance_default. unfold array_get.
  do 6 (destruct i as [|i];
        [do 6 (destruct j as [|j]; [reflexivity|]); lia|]).
  lia.
Qed.

Section PoseAndCovariance.

Variable lm : Libm.

Lemma poseTFToMsg_pose bt :
  fst (poseTFToMsg bt)
  = msg.mkPose (msg.mkPoint (tf.getX (tf.getOrigin bt)) (tf.getY (tf.getOrigin bt))
                            (tf.getZ (tf.getOrigin bt)))
               (fst (quaternionTFToMsg (tf.getRotation bt))).
Proof. unfold poseTFToMsg. destruct (quaternionTFToMsg _); reflexivity. Qed.

(** C3. On a success frame whose sensor pose holds no NaN, [process]
    stores as body pose the product anchor * sensor pose * inverse of the
    current body-to-sensor offset (taken left to right), with its origin
    multiplied by [translation_correction_factor_] and its basis, hence
    its rotation, left as it is.  That pose is what the frame reports:
    the transform it broadcasts when [publish_tf_] is set, and the
    position (the scaled origin) and orientation (of the unscaled
    product) of the odometry message, which the pose message repeats.
    The factor stays what the constructor read: the parameter
    [tf_factor], 1.0 when it is not set and 1.0 when it is 0. *)
Theorem body_pose_scales_translation_only s fr :
  asserts_hold s fr ->
  succeeded fr = true ->
  has_nan (sensor_pose_of fr) = false ->
  let t := tf.mul (tf.mul (anchor s fr) (sensor_pose_of fr))
                  (tf.inverse (offset s (tf_listener fr) (frame_id_of fr))) in
  let k := translation_correction_factor_ s in
  exists s' ev o p,
    process lm s fr = Some (s', ev)
    /\ base_transform_ s' = tf.mkTransform (tf.m_basis t) (tf.scale (tf.m_origin t) k)
    /\ tf.getRotation (base_transform_ s') = tf.getRotation t
    /\ outputs ev
       = (if publish_tf_ s
          then [sendTransform (tf.mkStampedTransform (base_transform_ s') (frame_stamp fr)
                                 (odom_frame_id_ s) (base_link_frame_id_ s))]
          else [])
         ++ [odom_pub_publish o; pose_pub_publish p; info_pub_publish (make_info fr)]
    /\ msg.position (msg.pose (msg.odom_pose o))
       = msg.mkPoint (tf.getX (tf.m_origin t) * k) (tf.getY (tf.m_origin t) * k)
                     (tf.getZ (tf.m_origin t) * k)
    /\ msg.orientation (msg.pose (msg.odom_pose o))
       = fst (quaternionTFToMsg (tf.getRotation t))
    /\ msg.ps_pose p = msg.pose (msg.odom_pose o)
    /\ translation_correction_factor_ s' = k
    /\ forall ps opts,
        translation_correction_factor_ (OdometerBase_new ps opts)
        = match getParam_double ps "tf_factor" with
          | Some d => if deq d 0 then 1 else d
          | None => 1
          end.
Proof.
  intros A S N t k.
  destruct (process_valid lm s fr A S N) as (s1 & ev & K & E & O).
  rewrite poseTFToMsg_pose in O.
  match type of O with
  | _ = _ ++ publish_all ?odom ?pose _ => eexists; exists ev, odom, pose
  end.
  split; [exact E|].
  split; [reflexivity|].
  split.
  { unfold tf.getRotation, body_pose.
    cbn [base_transform_ set_last_published_tf_time set_last_time set_base_transform
         tf.setOrigin tf.m_basis].
    reflexivity. }
  split; [exact O|].
  split.
  { unfold body_pose.
    cbn [msg.odom_pose msg.pose msg.position tf.setOrigin tf.getOrigin tf.m_origin
         tf.scale tf.getX tf.getY tf.getZ].
    reflexivity. }
  split.
  { unfold tf.getRotation, body_pose.
    cbn [msg.odom_pose msg.pose msg.orientation tf.setOrigin tf.m_basis].
    reflexivity. }
  split; [reflexivity|].
  split; [exact (kept_factor _ _ K)|].
  intros ps opts. cbn. unfold load_tf_factor, param.
  destruct (getParam_double ps "tf_factor"); reflexivity.
Qed.

(** C4. When velocity is computed, the one odometry message of the
    frame holds the estimator's covariance entry (i, j) in slot [j*6+i]
    of its twist covariance, unscaled, for all i and j below 6.  Read
    row-major that is the transpose, and it is the entry (i, j) itself in
    slot [i*6+j] when the estimator's matrix is symmetric. *)
Theorem twist_covariance_slots s fr :
  asserts_hold s fr ->
  succeeded fr = true ->
  has_nan (sensor_pose_of fr) = false ->
  dgt (elapsed (last_time_ s) (frame_stamp fr)) 0 = true ->
  let cov := fovis.getMotionEstimateCov (readings fr) in
  exists s' ev m,
    process lm s fr = Some (s', ev)
    /\ In (odom_pub_publish m) ev
    /\ (forall m', In (odom_pub_publish m') ev -> m' = m)
    /\ (forall i j, (i < 6)%nat -> (j < 6)%nat ->
          array_get (msg.twist_covariance (msg.odom_twist m)) (j * 6 + i) = cov i j)
    /\ ((forall i j, cov i j = cov j i) ->
        forall i j, (i < 6)%nat -> (j < 6)%nat ->
          array_get (msg.twist_covariance (msg.odom_twist m)) (i * 6 + j) = cov i j).
Proof.
  intros A S N D cov.
  destruct (process_valid lm s fr A S N) as (s1 & ev & K & E & O).
  rewrite D in O.
  match type of O with
  | _ = _ ++ publish_all ?odom _ _ => eexists; exists ev, odom
  end.
  assert (I : forall e, is_output e = true -> In e ev <-> In e (outputs ev)).
  { intros e Oe. split; [intros H; apply In_outputs; assumption|].
    intros H. apply filter_In in H. apply H. }
  split; [exact E|]. split; [|split; [|split]].
  - apply I; [reflexivity|]. rewrite O. apply in_or_app. right. left. reflexivity.
  - intros m' H. apply I in H; [|reflexivity]. rewrite O in H.
    apply in_app_or in H. destruct H as [H | H].
    + destruct (publish_tf_ s); [destruct H as [H | []]; discriminate | destruct H].
    + destruct H as [H | [H | [H | []]]]; try discriminate.
      injection H as <-. reflexivity.
  - intros i j Hi Hj. cbn [msg.odom_twist]. unfold fill_twist.
    cbn [msg.twist_covariance no_twist]. apply fill_covariance_slot; assumption.
  - intros Sy i j Hi Hj. cbn [msg.odom_twist]. unfold fill_twist.
    cbn [msg.twist_covariance no_twist].
    rewrite fill_covariance_slot by assumption. symmetry. apply Sy.
Qed.

End PoseAndCovariance.

Section TwistAndRecovery.

Variable lm : Libm.

(** C5. When velocity is computed, the twist comes from
    delta = current offset * sensor motion * inverse of the current
    offset: the linear velocity is the origin of delta divided by dt,
    component by component, and the angular velocity is the axis of the
    rotation of delta times its angle, divided by dt, where the angle is
    [getAngle]: twice the arc cosine of the quaternion's w, after w has
    been clamped to [-1, 1], with no reduction to the shortest
    rotation. *)
Theorem twist_from_sandwiched_motion s fr :
  asserts_hold s fr ->
  succeeded fr = true ->
  has_nan (sensor_pose_of fr) = false ->
  dgt (elapsed (last_time_ s) (frame_stamp fr)) 0 = true ->
  let dt := ros.toSec (ros.Time_sub (frame_stamp fr) (last_time_ s)) in
  let current := offset s (tf_listener fr) (frame_id_of fr) in
  let delta := tf.mul (tf.mul current (eigenToTF (fovis.getMotionEstimate (readings fr))))
                      (tf.inverse current) in
  let q := tf.getRotation delta in
  let w := if dlt (tf.qw q) (-1) then -1 else tf.qw q in
  let w := if dgt w 1 then 1 else w in
  let angular := tf.vdiv (tf.scale (tf.getAxis lm q) (2 * libm_acos lm w)) dt in
  exists s' ev m,
    process lm s fr = Some (s', ev)
    /\ In (odom_pub_publish m) ev
    /\ msg.linear (msg.twist (msg.odom_twist m))
       = msg.mkVector3 (tf.getX (tf.getOrigin delta) / dt)
                       (tf.getY (tf.getOrigin delta) / dt)
                       (tf.getZ (tf.getOrigin delta) / dt)
    /\ msg.angular (msg.twist (msg.odom_twist m))
       = msg.mkVector3 (tf.getX angular) (tf.getY angular) (tf.getZ angular).
Proof.
  intros A S N D dt current delta q w w' angular.
  assert (Edt : elapsed (last_time_ s) (frame_stamp fr) = dt).
  { unfold elapsed in *. destruct (ros.isZero (last_time_ s)); [discriminate D | reflexivity]. }
  destruct (process_valid lm s fr A S N) as (s1 & ev & K & E & O).
  rewrite D, Edt in O.
  match type of O with
  | _ = _ ++ publish_all ?odom _ _ => eexists; exists ev, odom
  end.
  split; [exact E|]. split; [|split; reflexivity].
  apply filter_In with (f := is_output). fold (outputs ev). rewrite O.
  apply in_or_app. right. left. reflexivity.
Qed.

(** C2. On a success frame whose sensor pose holds a NaN among its
    seven numbers, [process] stores as anchor the last body pose times
    the current body-to-sensor offset, stamped with the frame's time,
    drops the estimator, sets [reset_odometer_], leaves the body pose
    alone and publishes no odometry, pose or info message and no
    transform.  The next [initOdometer] builds a new estimator, clears
    the flag and keeps that anchor. *)
Theorem nan_pose_reanchors_and_suppresses s fr :
  asserts_hold s fr ->
  succeeded fr = true ->
  has_nan (sensor_pose_of fr) = true ->
  exists s' ev,
    process lm s fr = Some (s', ev)
    /\ initial_base_to_sensor_ s'
       = tf.mkStampedTransform
           (tf.mul (base_transform_ s) (offset s (tf_listener fr) (frame_id_of fr)))
           (frame_stamp fr) (odom_frame_id_ s) (base_link_frame_id_ s)
    /\ visual_odometer_ s' = None
    /\ reset_odometer_ s' = true
    /\ base_transform_ s' = base_transform_ s
    /\ outputs ev = []
    /\ forall fr2, exists s2 ev2,
         initOdometer s' fr2 = (s2, ev2)
         /\ visual_odometer_ s2 <> None
         /\ reset_odometer_ s2 = false
         /\ initial_base_to_sensor_ s2 = initial_base_to_sensor_ s'.
Proof.
  intros A S N.
  destruct (process_nan lm s fr A S N) as (s1 & ev & K & O & E).
  do 2 eexists. split; [exact E|].
  split; [reflexivity|]. split; [reflexivity|]. split; [reflexivity|].
  split; [exact (kept_base_transform _ _ K)|]. split; [exact O|].
  intros fr2.
  match goal with |- exists s2 ev2, initOdometer ?s' _ = _ /\ _ =>
    destruct (initOdometer_spec s' fr2) as (s2 & ev2 & E2 & _ & V2 & R2 & A2 & _)
  end.
  exists s2, ev2. split; [exact E2|].
  split; [rewrite V2; discriminate|]. split; [exact R2|].
  apply A2. reflexivity.
Qed.

(** Every frame leaves the depth source alone and, on a NaN, publishes
    nothing. *)
Lemma process_step s fr :
  asserts_hold s fr ->
  exists s' ev,
    process lm s fr = Some (s', ev)
    /\ depth_source_ s' = depth_source_ s
    /\ nan_suppressed fr ev.
Proof.
  intros A. unfold nan_suppressed.
  destruct (succeeded fr) eqn:S.
  - destruct (has_nan (sensor_pose_of fr)) eqn:N.
    + destruct (process_nan lm s fr A S N) as (s1 & ev & K & O & E).
      do 2 eexists. split; [exact E|].
      split; [exact (kept_depth_source _ _ K)|]. intros _ _. exact O.
    + destruct (process_valid lm s fr A S N) as (s1 & ev & K & E & O).
      do 2 eexists. split; [exact E|].
      split; [exact (kept_depth_source _ _ K)|]. intros _ H. discriminate H.
  - destruct (process_failure lm s fr A S) as (s1 & ev0 & K & O & E).
    do 2 eexists. split; [exact E|].
    split; [exact (kept_depth_source _ _ K)|]. intros H. discriminate H.
Qed.

(** C1. Over any sequence of frames that pass the assertions,
    [process] returns for every frame, and a success frame whose sensor
    pose holds a NaN among its seven numbers publishes nothing: no
    odometry, pose or info message and no transform. *)
Theorem nan_pose_is_never_published frames : forall s,
  depth_source_ s <> None ->
  Forall (fun fr => cv_step fr = msg.width (image_msg fr)) frames ->
  exists s' evs,
    run lm s frames = Some (s', evs)
    /\ Forall2 nan_suppressed frames evs.
Proof.
  induction frames as [|fr rest IH]; intros s D W.
  - exists s, []. split; [reflexivity | constructor].
  - inversion W as [|? ? Wfr Wrest]; subst.
    destruct (process_step s fr (conj D Wfr)) as (s1 & ev & E & D1 & C).
    assert (D' : depth_source_ s1 <> None) by (rewrite D1; exact D).
    destruct (IH s1 D' Wrest) as (s' & evs & R & F).
    exists s', (ev :: evs). cbn [run]. rewrite E, R.
    split; [reflexivity | constructor; assumption].
Qed.

End TwistAndRecovery.

Lemma asserts_state1 fr : cv_step fr = msg.width (image_msg fr) -> asserts_hold state1 fr.
Proof. intros W. split; [vm_compute; discriminate | exact W]. Qed.

Lemma asserts_state2 fr : cv_step fr = msg.width (image_msg fr) -> asserts_hold state2 fr.
Proof. intros W. split; [vm_compute; discriminate | exact W]. Qed.

(** An infinite translation passes the NaN test and is published, with the NaN it
    breeds in the products with the zero entries of the anchor. *)
Lemma infinite_pose_is_published :
  exists s' ev m,
    succeeded Scenario.frame_inf = true
    /\ process Fdlibm.libm state1 Scenario.frame_inf = Some (s', ev)
    /\ In (odom_pub_publish m) ev
    /\ msg.position (msg.pose (msg.odom_pose m)) = msg.mkPoint infinity nan nan
    /\ isfinite (msg.pt_x (msg.position (msg.pose (msg.odom_pose m)))) = false
    /\ tf.getOrigin (base_transform_ s') = tf.mkVector3 infinity nan nan.
Proof.
  do 3 eexists. split; [reflexivity|].
  split; [vm_compute; reflexivity|].
  split; [right; right; left; reflexivity|].
  repeat split.
Qed.

Lemma nan_never_published_witness :
  depth_source_ Scenario.start <> None
  /\ Forall (fun fr => cv_step fr = msg.width (image_msg fr))
            [Scenario.frame1; Scenario.frame_nan; Scenario.frame2]
  /\ exists s' evs,
      run Fdlibm.libm Scenario.start [Scenario.frame1; Scenario.frame_nan; Scenario.frame2]
      = Some (s', evs)
      /\ Forall2 nan_suppressed [Scenario.frame1; Scenario.frame_nan; Scenario.frame2] evs.
Proof.
  assert (D : depth_source_ Scenario.start <> None) by discriminate.
  assert (W : Forall (fun fr => cv_step fr = msg.width (image_msg fr))
                     [Scenario.frame1; Scenario.frame_nan; Scenario.frame2])
    by (repeat constructor).
  split; [exact D|]. split; [exact W|].
  exact (nan_pose_is_never_published Fdlibm.libm _ Scenario.start D W).
Defined.

(** The infinite translation is not finite, yet the frame is processed like any
    other: four publications, the estimator kept, no reset, the anchor as it was. *)
Lemma infinite_pose_is_not_recovered :
  exists s' ev,
    succeeded Scenario.frame_inf = true
    /\ isfinite (tf.getX (tf.getOrigin (sensor_pose_of Scenario.frame_inf))) = false
    /\ process Fdlibm.libm state1 Scenario.frame_inf = Some (s', ev)
    /\ List.length (outputs ev) = 4%nat
    /\ (exists vo, visual_odometer_ s' = Some vo)
    /\ reset_odometer_ s' = false
    /\ initial_base_to_sensor_ s' = initial_base_to_sensor_ state1.
Proof.
  do 2 eexists. split; [reflexivity|]. split; [reflexivity|].
  split; [vm_compute; reflexivity|].
  split; [reflexivity|]. split; [eexists; reflexivity|]. split; reflexivity.
Qed.

Lemma nan_pose_reanchors_witness :
  asserts_hold state1 Scenario.frame_nan
  /\ succeeded Scenario.frame_nan = true
  /\ has_nan (sensor_pose_of Scenario.frame_nan) = true
  /\ exists s' ev,
      process Fdlibm.libm state1 Scenario.frame_nan = Some (s', ev)
      /\ tf.data (initial_base_to_sensor_ s') = tf.identity
      /\ visual_odometer_ s' = None
      /\ reset_odometer_ s' = true
      /\ outputs ev = [].
Proof.
  assert (A : asserts_hold state1 Scenario.frame_nan) by (apply asserts_state1; reflexivity).
  assert (S : succeeded Scenario.frame_nan = true) by reflexivity.
  assert (N : has_nan (sensor_pose_of Scenario.frame_nan) = true) by (vm_compute; reflexivity).
  split; [exact A|]. split; [exact S|]. split; [exact N|].
  destruct (nan_pose_reanchors_and_suppresses Fdlibm.libm state1 Scenario.frame_nan A S N)
    as (s' & ev & E & I & V & R & _ & O & _).
  exists s', ev. split; [exact E|].
  split; [rewrite I; vm_compute; reflexivity|].
  repeat split; assumption.
Defined.

(** The unit step along X under identity offsets is reported as one
    metre with the factor 1.0 and as two metres with [tf_factor] 2.0, the
    orientation being the same.  Under the mount, with the factor 2.0, a
    pose one metre along the sensor's X axis and rolled a quarter turn is
    reported two metres along the body's Y axis, with the lever arm
    (0.5, 2, 1.5 up to rounding), pitched a quarter turn about the body's
    Y axis. *)
Lemma factor_two_doubles_unit_step :
  (asserts_hold state1 Scenario.frame2
   /\ asserts_hold state1_factor2 Scenario.frame2
   /\ succeeded Scenario.frame2 = true
   /\ has_nan (sensor_pose_of Scenario.frame2) = false
   /\ translation_correction_factor_ state1 = 1
   /\ translation_correction_factor_ state1_factor2 = 2
   /\ tf.getOrigin (sensor_pose_of Scenario.frame2) = tf.mkVector3 1 0 0
   /\ reports state1 Scenario.frame2 (msg.mkPoint 1 0 0) (msg.mkQuaternion 0 0 0 1)
   /\ reports state1_factor2 Scenario.frame2 (msg.mkPoint 2 0 0) (msg.mkQuaternion 0 0 0 1))
  /\ (asserts_hold (mounted_state1 mount Scenario.start2) (mounted mount frame_rolled)
      /\ succeeded (mounted mount frame_rolled) = true
      /\ has_nan (sensor_pose_of (mounted mount frame_rolled)) = false
      /\ anchor (mounted_state1 mount Scenario.start2) (mounted mount frame_rolled) = mount
      /\ offset (mounted_state1 mount Scenario.start2)
                (tf_listener (mounted mount frame_rolled))
                (frame_id_of (mounted mount frame_rolled)) = mount
      /\ tf.mul mount (tf.inverse mount) = tf.identity
      /\ reports (mounted_state1 mount Scenario.start2) (mounted mount frame_rolled)
                 (msg.mkPoint 0.49999999999999978 2 1.5)
                 (msg.mkQuaternion 0 0.70710678118654746 0 0.70710678118654757)).
Proof.
  assert (G : forall s fr position orientation
                     (A : asserts_hold s fr) (S : succeeded fr = true)
                     (N : has_nan (sensor_pose_of fr) = false),
             (forall s' ev o p,
                 process Fdlibm.libm s fr = Some (s', ev) ->
                 msg.ps_pose p = msg.pose (msg.odom_pose o) ->
                 In (odom_pub_publish o) ev ->
                 msg.pose (msg.odom_pose o) = msg.mkPose position orientation
                 /\ tf.getOrigin (base_transform_ s')
                    = tf.mkVector3 (msg.pt_x position) (msg.pt_y position)
                                   (msg.pt_z position)) ->
             reports s fr position orientation).
  { intros s fr position orientation A S N H.
    destruct (body_pose_scales_translation_only Fdlibm.libm s fr A S N)
      as (s' & ev & o & p & E & _ & _ & O & _ & _ & P & _).
    assert (Io : In (odom_pub_publish o) (outputs ev))
      by (rewrite O; apply in_or_app; right; left; reflexivity).
    assert (Ip : In (pose_pub_publish p) (outputs ev))
      by (rewrite O; apply in_or_app; right; right; left; reflexivity).
    assert (Ie : In (odom_pub_publish o) ev) by (apply filter_In in Io; apply Io).
    destruct (H s' ev o p E P Ie) as [Q B].
    exists s', ev, o, p. repeat split; try assumption. rewrite P. exact Q. }
  assert (A1 : asserts_hold state1 Scenario.frame2) by (apply asserts_state1; reflexivity).
  assert (A2 : asserts_hold state1_factor2 Scenario.frame2)
    by (split; [vm_compute; discriminate | reflexivity]).
  assert (A3 : asserts_hold (mounted_state1 mount Scenario.start2) (mounted mount frame_rolled))
    by (split; [vm_compute; discriminate | reflexivity]).
  assert (N1 : has_nan (sensor_pose_of Scenario.frame2) = false) by (vm_compute; reflexivity).
  assert (N3 : has_nan (sensor_pose_of (mounted mount frame_rolled)) = false)
    by (vm_compute; reflexivity).
  split; [|].
  - split; [exact A1|]. split; [exact A2|]. split; [reflexivity|]. split; [exact N1|].
    split; [vm_compute; reflexivity|]. split; [vm_compute; reflexivity|].
    split; [vm_compute; reflexivity|]. split.
    + apply (G _ _ _ _ A1 eq_refl N1). intros s' ev o p E _ I.
      clear G. vm_compute in E. injection E as <- <-.
      destruct I as [I' | [I' | [I' | [I' | [I' | []]]]]]; try discriminate I'.
      injection I' as <-. split; vm_compute; reflexivity.
    + apply (G _ _ _ _ A2 eq_refl N1). intros s' ev o p E _ I.
      clear G. vm_compute in E. injection E as <- <-.
      destruct I as [I' | [I' | [I' | [I' | [I' | []]]]]]; try discriminate I'.
      injection I' as <-. split; vm_compute; reflexivity.
  - split; [exact A3|]. split; [reflexivity|]. split; [exact N3|].
    split; [vm_compute; reflexivity|]. split; [vm_compute; reflexivity|].
    split; [vm_compute; reflexivity|].
    apply (G _ _ _ _ A3 eq_refl N3). intros s' ev o p E _ I.
    clear G. vm_compute in E. injection E as <- <-.
    destruct I as [I' | [I' | [I' | [I' | []]]]]; try discriminate I'.
    injection I' as <-. split; vm_compute; reflexivity.
Defined.

(** Read row-major, as the message defines its array, row 0 column 1 of the
    published covariance is slot 1; it holds the estimator's entry (1, 0),
    not its entry (0, 1). *)
Lemma covariance_is_transposed :
  exists s' ev m,
    process Fdlibm.libm state2 Scenario.frame3 = Some (s', ev)
    /\ In (odom_pub_publish m) ev
    /\ array_get (msg.twist_covariance (msg.odom_twist m)) (0 * 6 + 1) = 10
    /\ fovis.getMotionEstimateCov (readings Scenario.frame3) 1%nat 0%nat = 10
    /\ fovis.getMotionEstimateCov (readings Scenario.frame3) 0%nat 1%nat = 1
    /\ deq (array_get (msg.twist_covariance (msg.odom_twist m)) (0 * 6 + 1))
           (fovis.getMotionEstimateCov (readings Scenario.frame3) 0%nat 1%nat) = false.
Proof.
  do 3 eexists. split; [vm_compute; reflexivity|].
  split; [right; right; left; reflexivity|].
  repeat split.
Qed.

Lemma twist_covariance_witness :
  asserts_hold state2 Scenario.frame3
  /\ succeeded Scenario.frame3 = true
  /\ has_nan (sensor_pose_of Scenario.frame3) = false
  /\ dgt (elapsed (last_time_ state2) (frame_stamp Scenario.frame3)) 0 = true
  /\ exists s' ev m,
      process Fdlibm.libm state2 Scenario.frame3 = Some (s', ev)
      /\ In (odom_pub_publish m) ev
      /\ forall i j, (i < 6)%nat -> (j < 6)%nat ->
           array_get (msg.twist_covariance (msg.odom_twist m)) (j * 6 + i)
           = Scenario.cov i j.
Proof.
  assert (A : asserts_hold state2 Scenario.frame3) by (apply asserts_state2; reflexivity).
  assert (S : succeeded Scenario.frame3 = true) by reflexivity.
  assert (N : has_nan (sensor_pose_of Scenario.frame3) = false) by (vm_compute; reflexivity).
  assert (D : dgt (elapsed (last_time_ state2) (frame_stamp Scenario.frame3)) 0 = true)
    by (vm_compute; reflexivity).
  split; [exact A|]. split; [exact S|]. split; [exact N|]. split; [exact D|].
  destruct (twist_covariance_slots Fdlibm.libm state2 Scenario.frame3 A S N D)
    as (s' & ev & m & E & I & _ & C & _).
  exists s', ev, m. split; [exact E|]. split; [exact I|]. exact C.
Defined.

(** An incremental rotation by 120 degrees about (-1, -1, -1): the rotation
    read back from the delta transform has [w = -0.5], the angle handed to the
    twist is 4 pi / 3, above pi, and the angular velocity comes out along
    (+1, +1, +1). *)
Lemma rotation_angle_exceeds_pi :
  exists s' ev m,
    process Fdlibm.libm state2 Scenario.frame_turn = Some (s', ev)
    /\ In (odom_pub_publish m) ev
    /\ tf.getRotation
         (delta_base_transform tf.identity
            (eigenToTF (fovis.getMotionEstimate (readings Scenario.frame_turn))))
       = tf.mkQuaternion 0.5 0.5 0.5 (-0.5)
    /\ tf.getAngle Fdlibm.libm (tf.mkQuaternion 0.5 0.5 0.5 (-0.5)) = 4.1887902047863914
    /\ dgt (tf.getAngle Fdlibm.libm (tf.mkQuaternion 0.5 0.5 0.5 (-0.5))) Fdlibm.pi = true
    /\ msg.angular (msg.twist (msg.odom_twist m))
       = msg.mkVector3 4.8367983046245824 4.8367983046245824 4.8367983046245824.
Proof.
  do 3 eexists. split; [vm_compute; reflexivity|].
  split; [right; right; left; reflexivity|].
  repeat split; vm_compute; reflexivity.
Qed.

(** Two steps of one metre along X, half a second apart, identity offsets:
    2.0 m/s along X.  Under the mount the same step is 2.0 m/s along the
    body's Y axis, and a quarter turn about the sensor's X axis in half a
    second is pi rad/s about the body's Y axis, with the linear velocity of
    the lever arm.  Under the mount yawed by 160 degrees a sensor at rest
    gives a delta whose rotation has w just above 1; its angle is 0 and the
    twist is zero. *)
Lemma two_metres_per_second :
  (asserts_hold state2 Scenario.frame3
   /\ succeeded Scenario.frame3 = true
   /\ has_nan (sensor_pose_of Scenario.frame3) = false
   /\ dgt (elapsed (last_time_ state2) (frame_stamp Scenario.frame3)) 0 = true
   /\ ros.toSec (ros.Time_sub (frame_stamp Scenario.frame3) (last_time_ state2)) = 0.5
   /\ exists s' ev m,
       process Fdlibm.libm state2 Scenario.frame3 = Some (s', ev)
       /\ In (odom_pub_publish m) ev
       /\ msg.linear (msg.twist (msg.odom_twist m)) = msg.mkVector3 2 0 0
       /\ msg.angular (msg.twist (msg.odom_twist m)) = msg.mkVector3 0 0 0)
  /\ (asserts_hold (mounted_state2 mount Scenario.start) (mounted mount Scenario.frame3)
      /\ has_nan (sensor_pose_of (mounted mount Scenario.frame3)) = false
      /\ dgt (elapsed (last_time_ (mounted_state2 mount Scenario.start))
                      (frame_stamp (mounted mount Scenario.frame3))) 0 = true
      /\ offset (mounted_state2 mount Scenario.start)
                (tf_listener (mounted mount Scenario.frame3))
                (frame_id_of (mounted mount Scenario.frame3)) = mount
      /\ tf.mul mount (tf.inverse mount) = tf.identity
      /\ reports_twist (mounted_state2 mount Scenario.start) (mounted mount Scenario.frame3)
                       (msg.mkVector3 0 2 0) (msg.mkVector3 0 0 0))
  /\ (asserts_hold (mounted_state2 mount Scenario.start) (mounted mount frame_roll)
      /\ has_nan (sensor_pose_of (mounted mount frame_roll)) = false
      /\ dgt (elapsed (last_time_ (mounted_state2 mount Scenario.start))
                      (frame_stamp (mounted mount frame_roll))) 0 = true
      /\ reports_twist (mounted_state2 mount Scenario.start) (mounted mount frame_roll)
                       (msg.mkVector3 0.49999999999999978 0 1.5)
                       (msg.mkVector3 0 3.1415926535897931 0))
  /\ (asserts_hold (mounted_state2 yawed_mount Scenario.start) (mounted yawed_mount frame_still)
      /\ has_nan (sensor_pose_of (mounted yawed_mount frame_still)) = false
      /\ dgt (elapsed (last_time_ (mounted_state2 yawed_mount Scenario.start))
                      (frame_stamp (mounted yawed_mount frame_still))) 0 = true
      /\ offset (mounted_state2 yawed_mount Scenario.start)
                (tf_listener (mounted yawed_mount frame_still))
                (frame_id_of (mounted yawed_mount frame_still)) = yawed_mount
      /\ tf.getRotation
           (delta_base_transform yawed_mount
              (eigenToTF (fovis.getMotionEstimate (readings (mounted yawed_mount frame_still)))))
         = tf.mkQuaternion 0 0 0 1.0000000000000002
      /\ dgt 1.0000000000000002 1 = true
      /\ reports_twist (mounted_state2 yawed_mount Scenario.start)
                       (mounted yawed_mount frame_still)
                       (msg.mkVector3 0 0 0) (msg.mkVector3 0 0 0)).
Proof.
  assert (G : forall s fr lin ang
                     (A : asserts_hold s fr) (S : succeeded fr = true)
                     (N : has_nan (sensor_pose_of fr) = false)
                     (D : dgt (elapsed (last_time_ s) (frame_stamp fr)) 0 = true),
             (let dt := ros.toSec (ros.Time_sub (frame_stamp fr) (last_time_ s)) in
              let current := offset s (tf_listener fr) (frame_id_of fr) in
              let delta :=
                tf.mul (tf.mul current (eigenToTF (fovis.getMotionEstimate (readings fr))))
                       (tf.inverse current) in
              let q := tf.getRotation delta in
              let w := if dlt (tf.qw q) (-1) then -1 else tf.qw q in
              let w := if dgt w 1 then 1 else w in
              let angular :=
                tf.vdiv (tf.scale (tf.getAxis Fdlibm.libm q) (2 * libm_acos Fdlibm.libm w)) dt in
              msg.mkVector3 (tf.getX (tf.getOrigin delta) / dt)
                            (tf.getY (tf.getOrigin delta) / dt)
                            (tf.getZ (tf.getOrigin delta) / dt) = lin
              /\ msg.mkVector3 (tf.getX angular) (tf.getY angular) (tf.getZ angular) = ang) ->
             reports_twist s fr lin ang).
  { intros s fr lin ang A S N D [L W].
    destruct (twist_from_sandwiched_motion Fdlibm.libm s fr A S N D)
      as (s' & ev & m & E & I & Tl & Tw).
    exists s', ev, m. split; [exact E|]. split; [exact I|].
    destruct (msg.twist (msg.odom_twist m)) as [l a].
    cbn [msg.linear msg.angular] in Tl, Tw. rewrite Tl, Tw, L, W. reflexivity. }
  assert (A : asserts_hold state2 Scenario.frame3) by (apply asserts_state2; reflexivity).
  assert (S : succeeded Scenario.frame3 = true) by reflexivity.
  assert (N : has_nan (sensor_pose_of Scenario.frame3) = false) by (vm_compute; reflexivity).
  assert (D : dgt (elapsed (last_time_ state2) (frame_stamp Scenario.frame3)) 0 = true)
    by (vm_compute; reflexivity).
  assert (A1 : asserts_hold (mounted_state2 mount Scenario.start) (mounted mount Scenario.frame3))
    by (split; [vm_compute; discriminate | reflexivity]).
  assert (N1 : has_nan (sensor_pose_of (mounted mount Scenario.frame3)) = false)
    by (vm_compute; reflexivity).
  assert (D1 : dgt (elapsed (last_time_ (mounted_state2 mount Scenario.start))
                      (frame_stamp (mounted mount Scenario.frame3))) 0 = true)
    by (vm_compute; reflexivity).
  assert (A2 : asserts_hold (mounted_state2 mount Scenario.start) (mounted mount frame_roll))
    by (split; [vm_compute; discriminate | reflexivity]).
  assert (N2 : has_nan (sensor_pose_of (mounted mount frame_roll)) = false)
    by (vm_compute; reflexivity).
  assert (D2 : dgt (elapsed (last_time_ (mounted_state2 mount Scenario.start))
                      (frame_stamp (mounted mount frame_roll))) 0 = true)
    by (vm_compute; reflexivity).
  assert (A3 : asserts_hold (mounted_state2 yawed_mount Scenario.start)
                 (mounted yawed_mount frame_still))
    by (split; [vm_compute; discriminate | reflexivity]).
  assert (N3 : has_nan (sensor_pose_of (mounted yawed_mount frame_still)) = false)
    by (vm_compute; reflexivity).
  assert (D3 : dgt (elapsed (last_time_ (mounted_state2 yawed_mount Scenario.start))
                      (frame_stamp (mounted yawed_mount frame_still))) 0 = true)
    by (vm_compute; reflexivity).
  split; [|split; [|split]].
  - split; [exact A|]. split; [exact S|]. split; [exact N|]. split; [exact D|].
    split; [vm_compute; reflexivity|].
    destruct (twist_from_sandwiched_motion Fdlibm.libm state2 Scenario.frame3 A S N D)
      as (s' & ev & m & E & I & L & W).
    exists s', ev, m. split; [exact E|]. split; [exact I|].
    rewrite L, W. split; vm_compute; reflexivity.
  - split; [exact A1|]. split; [exact N1|]. split; [exact D1|].
    split; [vm_compute; reflexivity|]. split; [vm_compute; reflexivity|].
    apply (G _ _ _ _ A1 eq_refl N1 D1).
    split; vm_compute; reflexivity.
  - split; [exact A2|]. split; [exact N2|]. split; [exact D2|].
    apply (G _ _ _ _ A2 eq_refl N2 D2).
    split; vm_compute; reflexivity.
  - split; [exact A3|]. split; [exact N3|]. split; [exact D3|].
    split; [vm_compute; reflexivity|]. split; [vm_compute; reflexivity|].
    split; [vm_compute; reflexivity|].
    apply (G _ _ _ _ A3 eq_refl N3 D3).
    split; vm_compute; reflexivity.
Defined.

Lemma missing_transform_witness :
  canTransform Scenario.listener (base_link_frame_id_ Scenario.start) "camera" ros.Time_zero
  = false
  /\ exists s' t ev,
      getBaseToSensorTransform Scenario.start Scenario.listener (ros.mkTime 100 0)
        (ros.mkTime 1 0) "camera" tf.StampedTransform_default = (s', t, ev)
      /\ tf.data t = tf.identity
      /\ filter is_warning ev = [ROS_LOG WARN (tf_not_available "/base_link" "camera")].
Proof.
  assert (C : canTransform Scenario.listener (base_link_frame_id_ Scenario.start)
                "camera" ros.Time_zero = false) by reflexivity.
  split; [exact C|].
  destruct (missing_transform_degrades_to_identity Scenario.start Scenario.listener
              (ros.mkTime 100 0) (ros.mkTime 1 0) "camera" tf.StampedTransform_default C)
    as [(s' & t & ev & E & I & _ & W & _) _].
  exists s', t, ev. split; [exact E|]. split; [exact I|]. exact W.
Defined.

Lemma lookup_ignores_stamp_witness :
  canTransform Scenario.listener (base_link_frame_id_ Scenario.start) "camera" ros.Time_zero
  = canTransform listener_at_stamps (base_link_frame_id_ Scenario.start) "camera" ros.Time_zero
  /\ lookupTransform Scenario.listener (base_link_frame_id_ Scenario.start) "camera"
       ros.Time_zero
     = lookupTransform listener_at_stamps (base_link_frame_id_ Scenario.start) "camera"
         ros.Time_zero
  /\ canTransform listener_at_stamps (base_link_frame_id_ Scenario.start) "camera"
       (ros.mkTime 2 0) = true
  /\ getBaseToSensorTransform Scenario.start Scenario.listener (ros.mkTime 100 0)
       (ros.mkTime 1 0) "camera" tf.StampedTransform_default
     = getBaseToSensorTransform Scenario.start listener_at_stamps (ros.mkTime 100 0)
         (ros.mkTime 2 0) "camera" tf.StampedTransform_default.
Proof.
  assert (C : canTransform Scenario.listener (base_link_frame_id_ Scenario.start) "camera"
                ros.Time_zero
              = canTransform listener_at_stamps (base_link_frame_id_ Scenario.start) "camera"
                  ros.Time_zero) by reflexivity.
  assert (L : lookupTransform Scenario.listener (base_link_frame_id_ Scenario.start) "camera"
                ros.Time_zero
              = lookupTransform listener_at_stamps (base_link_frame_id_ Scenario.start)
                  "camera" ros.Time_zero) by reflexivity.
  split; [exact C|]. split; [exact L|]. split; [reflexivity|].
  exact (proj1 (lookup_uses_latest_transform_not_stamp Scenario.start Scenario.listener
                  listener_at_stamps (ros.mkTime 100 0) (ros.mkTime 1 0) (ros.mkTime 2 0)
                  "camera" tf.StampedTransform_default C L)).
Defined.

(** * Further properties of the class *)

Section Calls.

Variable lm : Libm.

(** X1. [process] fails an assertion exactly when no depth source was
    set or the converted image's row step differs from the image width;
    in every other case it returns. *)
Theorem process_aborts_iff_assertion_fails s fr :
  process lm s fr = None
  <-> depth_source_ s = None \/ cv_step fr <> msg.width (image_msg fr).
Proof.
  split.
  - intros H.
    destruct (depth_source_ s) eqn:D; [|left; reflexivity].
    destruct (Z.eq_dec (cv_step fr) (msg.width (image_msg fr))) as [W | W]; [|right; exact W].
    assert (A : asserts_hold s fr) by (split; [rewrite D; discriminate | exact W]).
    rewrite (process_eq lm s fr A) in H. discriminate H.
  - intros H. unfold process.
    destruct (entry_spec s fr) as (s1 & ev & E & K & _).
    assert (E' : (if match visual_odometer_ s with None => true | Some _ => false end
                  then initOdometer s fr else (s, [])) = (s1, ev)).
    { unfold entry in E. destruct (visual_odometer_ s); exact E. }
    rewrite E'. rewrite (kept_depth_source _ _ K).
    destruct (visual_odometer_ s1); [|reflexivity].
    destruct (depth_source_ s); [|reflexivity].
    destruct H as [H | H]; [discriminate H|].
    apply Z.eqb_neq in H. rewrite H. reflexivity.
Qed.

Lemma process_Some_asserts s fr r : process lm s fr = Some r -> asserts_hold s fr.
Proof.
  intros H. split.
  - intros D. unfold process in H.
    destruct (entry_spec s fr) as (s1 & ev & E & K & _).
    assert (E' : (if match visual_odometer_ s with None => true | Some _ => false end
                  then initOdometer s fr else (s, [])) = (s1, ev)).
    { unfold entry in E. destruct (visual_odometer_ s); exact E. }
    rewrite E', (kept_depth_source _ _ K), D in H.
    destruct (visual_odometer_ s1); discriminate H.
  - destruct (Z.eq_dec (cv_step fr) (msg.width (image_msg fr))) as [W | W]; [exact W|].
    unfold process in H.
    destruct (entry_spec s fr) as (s1 & ev & E & K & _).
    assert (E' : (if match visual_odometer_ s with None => true | Some _ => false end
                  then initOdometer s fr else (s, [])) = (s1, ev)).
    { unfold entry in E. destruct (visual_odometer_ s); exact E. }
    rewrite E' in H. apply Z.eqb_neq in W. rewrite W in H.
    destruct (visual_odometer_ s1); [destruct (depth_source_ s1)|]; discriminate H.
Qed.

Lemma kept_same_configuration s s' : kept s s' -> same_configuration s s'.
Proof. intros []. constructor; assumption. Qed.

Lemma same_configuration_refl s : same_configuration s s.
Proof. constructor; reflexivity. Qed.

Lemma same_configuration_trans a b c :
  same_configuration a b -> same_configuration b c -> same_configuration a c.
Proof. intros [] []. constructor; etransitivity; eassumption. Qed.

(** The three ways a frame can go, by the state it leaves. *)
Lemma process_cases s fr s' ev :
  process lm s fr = Some (s', ev) ->
  exists s1, kept s s1
    /\ (s' = set_last_time s1 ros.Time_zero
        \/ (exists t, s' = set_reset_odometer
                             (set_visual_odometer (set_initial_base_to_sensor s1 t) None) true)
        \/ (exists bt, s' = set_last_published_tf_time
                              (set_last_time (set_base_transform s1 bt) (frame_stamp fr))
                              (frame_stamp fr))).
Proof.
  intros H. pose proof (process_Some_asserts s fr _ H) as A.
  destruct (succeeded fr) eqn:S.
  - destruct (has_nan (sensor_pose_of fr)) eqn:N.
    + destruct (process_nan lm s fr A S N) as (s1 & ev1 & K & _ & E).
      rewrite E in H. injection H as <- _.
      exists s1. split; [exact K|]. right. left. eexists. reflexivity.
    + destruct (process_valid lm s fr A S N) as (s1 & ev1 & K & E & _).
      rewrite E in H. injection H as <- _.
      exists s1. split; [exact K|]. right. right. eexists. reflexivity.
  - destruct (process_failure lm s fr A S) as (s1 & ev0 & K & _ & E).
    rewrite E in H. injection H as <- _.
    exists s1. split; [exact K|]. left. reflexivity.
Qed.

Lemma step_same_configuration s c s' ev :
  step lm s c = Some (s', ev) -> same_configuration s s'.
Proof.
  destruct c as [d | | fr | now1 now2]; cbn [step]; intros H.
  - injection H as <- _. constructor; reflexivity.
  - unfold processReinitFovis in H.
    destruct (visual_odometer_ s); injection H as <- _; constructor; reflexivity.
  - destruct (process_cases s fr s' ev H) as (s1 & K & [-> | [[t ->] | [bt ->]]]);
      apply kept_same_configuration in K; destruct K; constructor; assumption.
  - unfold publishLastKnownTf in H.
    destruct (_ && _); injection H as <- _; constructor; reflexivity.
Qed.

(** X2. Whatever is called on the object, in whatever order, the
    configuration read by the constructor stays: the estimator options,
    the translation correction factor, both frame ids and the
    publish-transform flag are the same after any series of calls. *)
Theorem configuration_is_never_changed cs : forall s s' ev,
  calls lm s cs = Some (s', ev) -> same_configuration s s'.
Proof.
  induction cs as [|c rest IH]; intros s s' ev H; cbn [calls] in H.
  - injection H as <- _. apply same_configuration_refl.
  - destruct (step lm s c) as [[s1 ev1]|] eqn:E; [|discriminate H].
    destruct (calls lm s1 rest) as [[s2 ev2]|] eqn:R; [|discriminate H].
    injection H as <- _.
    exact (same_configuration_trans _ _ _ (step_same_configuration _ _ _ _ E) (IH _ _ _ R)).
Qed.

Lemma entry_reset s fr :
  reset_pending_without_estimator s -> reset_odometer_ (fst (entry s fr)) = false.
Proof.
  intros I. unfold entry.
  destruct (visual_odometer_ s) eqn:V.
  - cbn [fst]. destruct (reset_odometer_ s) eqn:R; [|reflexivity].
    specialize (I R). congruence.
  - destruct (initOdometer_spec s fr) as (s1 & ev & E & _ & _ & R & _).
    rewrite E. exact R.
Qed.

Lemma step_reset_pending s c s' ev :
  reset_pending_without_estimator s ->
  step lm s c = Some (s', ev) ->
  reset_pending_without_estimator s'.
Proof.
  intros I. destruct c as [d | | fr | now1 now2]; cbn [step]; intros H.
  - injection H as <- _. exact I.
  - unfold processReinitFovis in H.
    destruct (visual_odometer_ s) eqn:V; injection H as <- _.
    + intros _. reflexivity.
    + exact I.
  - pose proof (process_Some_asserts s fr _ H) as A.
    rewrite (process_eq lm s fr A) in H. cbv zeta in H.
    pose proof (entry_reset s fr I) as R.
    destruct (entry_spec s fr) as (s1 & ev1 & E & _ & V1 & _).
    rewrite E in *. cbn [fst snd] in *.
    destruct (fovis.is_success _).
    + destruct (has_nan (sensor_pose_of fr)) eqn:N.
      * destruct (on_success_nan lm s1 fr (new_odom_msg s1 fr) (new_pose_msg s1 fr) N)
          as (s0 & ev2 & _ & E2 & _).
        rewrite E2 in H. injection H as <- _. intros _. reflexivity.
      * destruct (on_success_valid lm s1 fr (new_odom_msg s1 fr) (new_pose_msg s1 fr) N)
          as (s0 & ev2 & [h ->] & E2 & _).
        rewrite E2 in H. injection H as <- _.
        intros R'. cbn in R'. congruence.
    + rewrite on_failure_eq in H. injection H as <- _.
      intros R'. cbn in R'. congruence.
  - unfold publishLastKnownTf in H.
    destruct (_ && _); injection H as <- _; exact I.
Qed.

(** X8. From construction on, through any series of calls, the reset
    flag is only ever set while the estimator is discarded: whenever
    [reset_odometer_] is true, [visual_odometer_] is NULL. *)
Theorem reset_flag_implies_no_estimator ps opts cs s' ev :
  calls lm (OdometerBase_new ps opts) cs = Some (s', ev) ->
  reset_odometer_ s' = true -> visual_odometer_ s' = None.
Proof.
  assert (G : forall cs s s' ev,
             reset_pending_without_estimator s ->
             calls lm s cs = Some (s', ev) -> reset_pending_without_estimator s').
  { clear. intros cs. induction cs as [|c rest IH]; intros s s' ev I H; cbn [calls] in H.
    - injection H as <- _. exact I.
    - destruct (step lm s c) as [[s1 ev1]|] eqn:E; [|discriminate H].
      destruct (calls lm s1 rest) as [[s2 ev2]|] eqn:R; [|discriminate H].
      injection H as <- _.
      exact (IH _ _ _ (step_reset_pending _ _ _ _ I E) R). }
  intros H. apply (G cs (OdometerBase_new ps opts) s' ev); [|exact H].
  intros _. reflexivity.
Qed.

End Calls.

(** [publishLastKnownTf], with the test on the durations read as a test on
    nanoseconds. *)
Lemma publishLastKnownTf_eq s now1 now2 :
  publishLastKnownTf s now1 now2
  = if publish_tf_ s
       && (9000000000 <? ros.toNSec now1 - ros.toNSec (last_published_tf_time_ s))%Z
    then (set_last_published_tf_time s now2,
          [sendTransform (tf.mkStampedTransform (base_transform_ s) now2
                            (odom_frame_id_ s) (base_link_frame_id_ s))])
    else (s, []).
Proof.
  unfold publishLastKnownTf, ros.Time_sub.
  pose proof (Duration_gt_9 (ros.toNSec now1 - ros.toNSec (last_published_tf_time_ s))) as G.
  destruct (ros.Duration_gt _ _).
  - assert (L : (9000000000 <? ros.toNSec now1 - ros.toNSec (last_published_tf_time_ s))%Z
                = true) by (apply Z.ltb_lt, G; reflexivity).
    rewrite L. reflexivity.
  - assert (L : (9000000000 <? ros.toNSec now1 - ros.toNSec (last_published_tf_time_ s))%Z
                = false).
    { apply Z.ltb_ge. destruct (Z.lt_ge_cases 9000000000
                                  (ros.toNSec now1 - ros.toNSec (last_published_tf_time_ s)))
        as [C | C]; [apply G in C; discriminate C | lia]. }
    rewrite L. reflexivity.
Qed.

Section Publications.

Variable lm : Libm.

(** X3. A frame that passes the assertions publishes either nothing (a
    success with a NaN in the sensor pose) or, in this order, at most one
    transform, then one odometry, one pose and one info message.  The
    transform is sent exactly on a success with [publish_tf_] set and is
    the body pose just stored; all carry the image's stamp; the odometry
    message is in the odometry frame with the body frame as child, the
    pose message repeats the odometry pose with the body frame in its
    header, and the pose covariance is never filled in. *)
Theorem frame_publications_shape s fr :
  asserts_hold s fr ->
  exists s' ev,
    process lm s fr = Some (s', ev)
    /\ ((succeeded fr = true /\ has_nan (sensor_pose_of fr) = true /\ outputs ev = [])
        \/ exists o p,
             outputs ev
             = (if succeeded fr && publish_tf_ s
                then [sendTransform
                        (tf.mkStampedTransform (base_transform_ s') (frame_stamp fr)
                           (odom_frame_id_ s) (base_link_frame_id_ s))]
                else [])
               ++ [odom_pub_publish o; pose_pub_publish p; info_pub_publish (make_info fr)]
             /\ msg.odom_header o = msg.mkHeader (frame_stamp fr) (odom_frame_id_ s)
             /\ msg.child_frame_id o = base_link_frame_id_ s
             /\ msg.ps_header p = msg.mkHeader (frame_stamp fr) (base_link_frame_id_ s)
             /\ msg.ps_pose p = msg.pose (msg.odom_pose o)
             /\ msg.pose_covariance (msg.odom_pose o) = msg.Covariance_default
             /\ msg.stamp (msg.info_header (make_info fr)) = frame_stamp fr).
Proof.
  intros A.
  destruct (succeeded fr) eqn:S.
  - destruct (has_nan (sensor_pose_of fr)) eqn:N.
    + destruct (process_nan lm s fr A S N) as (s1 & ev & _ & O & E).
      do 2 eexists. split; [exact E|]. left. repeat split; assumption.
    + destruct (process_valid lm s fr A S N) as (s1 & ev & _ & E & O).
      do 2 eexists. split; [exact E|]. right.
      do 2 eexists. split; [exact O|]. repeat split.
  - destruct (process_failure lm s fr A S) as (s1 & ev0 & _ & O & E).
    do 2 eexists. split; [exact E|]. right.
    exists (new_odom_msg s fr), (new_pose_msg s fr).
    split; [rewrite outputs_app, O; reflexivity|]. repeat split.
Qed.

(** X4. How a frame moves the two clocks of the object.  A success
    without NaN sets both [last_time_] and [last_published_tf_time_] to
    the image's stamp; a failure clears [last_time_] and leaves
    [last_published_tf_time_]; a success with a NaN returns early and
    leaves both, so the baseline of the next velocity is not cleared. *)
Theorem frame_clock_bookkeeping s fr :
  asserts_hold s fr ->
  exists s' ev,
    process lm s fr = Some (s', ev)
    /\ last_time_ s'
       = (if succeeded fr
          then if has_nan (sensor_pose_of fr) then last_time_ s else frame_stamp fr
          else ros.Time_zero)
    /\ last_published_tf_time_ s'
       = (if succeeded fr && negb (has_nan (sensor_pose_of fr))
          then frame_stamp fr
          else last_published_tf_time_ s).
Proof.
  intros A.
  destruct (succeeded fr) eqn:S.
  - destruct (has_nan (sensor_pose_of fr)) eqn:N.
    + destruct (process_nan lm s fr A S N) as (s1 & ev & K & _ & E).
      do 2 eexists. split; [exact E|].
      split; [exact (kept_last_time _ _ K) | exact (kept_last_published _ _ K)].
    + destruct (process_valid lm s fr A S N) as (s1 & ev & _ & E & _).
      do 2 eexists. split; [exact E|]. split; reflexivity.
  - destruct (process_failure lm s fr A S) as (s1 & ev0 & K & _ & E).
    do 2 eexists. split; [exact E|].
    split; [reflexivity | exact (kept_last_published _ _ K)].
Qed.

(** X5. The keep-alive after a valid frame.  Once [process] has stored
    and published a body pose for a frame stamped [t], a call of
    [publishLastKnownTf] does nothing while the clock is at most nine
    seconds past [t], and after that, when transforms are published,
    sends that same body pose stamped with the current time. *)
Theorem keepalive_after_valid_frame s fr (now1 now2 : ros.Time) :
  asserts_hold s fr ->
  succeeded fr = true ->
  has_nan (sensor_pose_of fr) = false ->
  exists s' ev,
    process lm s fr = Some (s', ev)
    /\ ((ros.toNSec now1 - ros.toNSec (frame_stamp fr) <= 9000000000)%Z ->
        publishLastKnownTf s' now1 now2 = (s', []))
    /\ ((9000000000 < ros.toNSec now1 - ros.toNSec (frame_stamp fr))%Z ->
        publish_tf_ s = true ->
        In (sendTransform (tf.mkStampedTransform (base_transform_ s') (frame_stamp fr)
                             (odom_frame_id_ s) (base_link_frame_id_ s))) ev
        /\ snd (publishLastKnownTf s' now1 now2)
           = [sendTransform (tf.mkStampedTransform (base_transform_ s') now2
                               (odom_frame_id_ s) (base_link_frame_id_ s))]).
Proof.
  intros A S N.
  destruct (process_valid lm s fr A S N) as (s1 & ev & K & E & O).
  do 2 eexists. split; [exact E|]. split.
  - intros L. rewrite publishLastKnownTf_eq.
    cbn [last_published_tf_time_ set_last_published_tf_time].
    apply Z.ltb_ge in L. rewrite L, andb_false_r. reflexivity.
  - intros L P. split.
    + rewrite P in O. apply filter_In with (f := is_output). fold (outputs ev).
      rewrite O. left. reflexivity.
    + rewrite publishLastKnownTf_eq.
      cbn [last_published_tf_time_ set_last_published_tf_time publish_tf_ set_last_time
           set_base_transform odom_frame_id_ base_link_frame_id_ base_transform_].
      apply Z.ltb_lt in L.
      rewrite (kept_publish_tf _ _ K), P, L,
        (kept_odom_frame_id _ _ K), (kept_base_link_frame_id _ _ K). reflexivity.
Qed.

End Publications.

(** X6. A keep-alive that fired is not repeated before nine more seconds
    have passed on the clock: a second call whose first clock reading is
    at most nine seconds after the stamp of the first broadcast changes
    nothing and sends nothing. *)
Theorem keepalive_does_not_refire_within_9s s (now1 now2 now3 now4 : ros.Time) :
  (ros.toNSec now3 - ros.toNSec now2 <= 9000000000)%Z ->
  snd (publishLastKnownTf s now1 now2) <> [] ->
  publishLastKnownTf (fst (publishLastKnownTf s now1 now2)) now3 now4
  = (fst (publishLastKnownTf s now1 now2), []).
Proof.
  intros L F. rewrite (publishLastKnownTf_eq s now1 now2) in *.
  destruct (publish_tf_ s && _)%bool; cbn [fst snd] in *; [|contradiction].
  rewrite publishLastKnownTf_eq. cbn [last_published_tf_time_ set_last_published_tf_time].
  apply Z.ltb_ge in L. rewrite L, andb_false_r. reflexivity.
Qed.

(** [x == 0] is false for every [x] that [loadParams] lets through. *)
Lemma load_tf_factor_nonzero ps : deq (load_tf_factor ps) 0 = false.
Proof.
  unfold load_tf_factor.
  destruct (deq (param getParam_double ps "tf_factor" 1) 0) eqn:E; [reflexivity | exact E].
Qed.

(** X9. The translation correction factor of a constructed object is
    never zero, whatever the parameter server holds: a [tf_factor] that
    compares equal to 0 (either sign of zero) is replaced by 1.0, any
    other double is taken as it is, and without the parameter the factor
    is 1.0. *)
Theorem correction_factor_is_never_zero ps opts :
  deq (translation_correction_factor_ (OdometerBase_new ps opts)) 0 = false
  /\ (forall d, ps "tf_factor"%string = Some (TypeDouble d) -> deq d 0 = true ->
                translation_correction_factor_ (OdometerBase_new ps opts) = 1)
  /\ (forall d, ps "tf_factor"%string = Some (TypeDouble d) -> deq d 0 = false ->
                translation_correction_factor_ (OdometerBase_new ps opts) = d)
  /\ (ps "tf_factor"%string = None ->
      translation_correction_factor_ (OdometerBase_new ps opts) = 1)
  /\ deq (-0) 0 = true.
Proof.
  split; [apply load_tf_factor_nonzero|].
  cbn [OdometerBase_new loadParams translation_correction_factor_].
  unfold load_tf_factor, param, getParam_double.
  split; [intros d -> Z; rewrite Z; reflexivity|].
  split; [intros d -> Z; rewrite Z; reflexivity|].
  split; [intros ->; reflexivity | reflexivity].
Qed.

(** X10. A freshly constructed object: the frame ids default to "/odom"
    and "/base_link" and [publish_tf_] to true, and a parameter of the
    wrong type is ignored like an absent one; there is no estimator and
    no depth source yet, no reset is pending, the body pose is the
    identity and both clocks are zero. *)
Theorem constructor_defaults ps opts :
  let s := OdometerBase_new ps opts in
  ((forall v, ps "odom_frame_id"%string <> Some (TypeString v)) ->
   odom_frame_id_ s = "/odom"%string)
  /\ ((forall v, ps "base_link_frame_id"%string <> Some (TypeString v)) ->
      base_link_frame_id_ s = "/base_link"%string)
  /\ ((forall b, ps "publish_tf"%string <> Some (TypeBoolean b)) -> publish_tf_ s = true)
  /\ (forall v, ps "odom_frame_id"%string = Some (TypeString v) -> odom_frame_id_ s = v)
  /\ (forall v, ps "base_link_frame_id"%string = Some (TypeString v) ->
                base_link_frame_id_ s = v)
  /\ (forall b, ps "publish_tf"%string = Some (TypeBoolean b) -> publish_tf_ s = b)
  /\ visual_odometer_ s = None
  /\ depth_source_ s = None
  /\ reset_odometer_ s = false
  /\ base_transform_ s = tf.identity
  /\ last_time_ s = ros.Time_zero
  /\ last_published_tf_time_ s = ros.Time_zero.
Proof.
  cbv zeta.
  cbn [OdometerBase_new loadParams odom_frame_id_ base_link_frame_id_ publish_tf_
       visual_odometer_ depth_source_ reset_odometer_ base_transform_ last_time_
       last_published_tf_time_].
  unfold param, getParam_string, getParam_bool.
  split; [|split; [|split]].
  - intros H. destruct (ps "odom_frame_id"%string) as [[b | i | d | v]|]; try reflexivity.
    destruct (H v eq_refl).
  - intros H. destruct (ps "base_link_frame_id"%string) as [[b | i | d | v]|]; try reflexivity.
    destruct (H v eq_refl).
  - intros H. destruct (ps "publish_tf"%string) as [[b | i | d | v]|]; try reflexivity.
    destruct (H b eq_refl).
  - split; [intros v ->; reflexivity|]. split; [intros v ->; reflexivity|].
    split; [intros b ->; reflexivity|]. repeat split.
Qed.

Lemma replace_dash_length key : String.length (replace_dash key) = String.length key.
Proof. induction key as [|c rest IH]; cbn; [reflexivity | rewrite IH; reflexivity]. Qed.

(** X12. The parameter name an estimator option is read from: the
    option's key with every dash replaced by an underscore.  It has the
    length of the key and no dash in it, it is the key itself when the
    key has no dash, and replacing twice is replacing once. *)
Theorem replace_dash_removes_every_dash key :
  String.length (replace_dash key) = String.length key
  /\ has_dash (replace_dash key) = false
  /\ replace_dash (replace_dash key) = replace_dash key
  /\ (has_dash key = false -> replace_dash key = key).
Proof.
  split; [apply replace_dash_length|].
  induction key as [|c rest (IH1 & IH2 & IH3)]; cbn [replace_dash has_dash].
  - repeat split.
  - destruct (Ascii.eqb c "-"%char) eqn:E; cbn [orb].
    + change (Ascii.eqb "_"%char "-"%char) with false. cbn [orb].
      split; [exact IH1|]. split; [rewrite IH2; reflexivity | discriminate].
    + rewrite E. cbn [orb].
      split; [exact IH1|]. split; [rewrite IH2; reflexivity|].
      intros H. rewrite (IH3 H). reflexivity.
Qed.

(** X11. The estimator options after construction.  The keys are those
    of the default options, in the same order.  An option whose parameter
    (the key with underscores for dashes) is not set keeps its default; a
    string parameter replaces the value; a parameter of any other type
    leaves the empty string in its place. *)
Theorem options_are_overridden_by_string_parameters ps opts :
  let loaded := getOptions (OdometerBase_new ps opts) in
  map fst loaded = map fst opts
  /\ forall k v, In (k, v) opts ->
       In (k, match ps (replace_dash k) with
              | None => v
              | Some (TypeString s) => s
              | Some _ => EmptyString
              end) loaded.
Proof.
  cbv zeta. unfold getOptions.
  cbn [OdometerBase_new loadParams visual_odometer_options_].
  unfold load_options. split.
  - rewrite map_map. apply map_ext. intros [k v]. cbn [fst].
    destruct (hasParam ps (replace_dash k)); reflexivity.
  - intros k v I.
    apply in_map with (f := fun kv : string * string =>
                              let key := replace_dash (fst kv) in
                              if hasParam ps key
                              then (fst kv, match getParam_string ps key with
                                            | Some v => v
                                            | None => EmptyString
                                            end)
                              else kv) in I.
    cbn [fst] in I. cbv zeta in I. unfold hasParam, getParam_string in I.
    destruct (ps (replace_dash k)) as [[b | i | d | s]|]; exact I.
Qed.

Lemma has_nan_of_translation pose :
  isnan (Eigen.x (Eigen.translation pose)) || isnan (Eigen.y (Eigen.translation pose))
  || isnan (Eigen.z (Eigen.translation pose)) = true ->
  has_nan (eigenToTF pose) = true.
Proof.
  intros H. unfold has_nan, eigenToTF, tf.Transform_of, tf.getOrigin.
  cbn [tf.m_origin tf.getX tf.getY tf.getZ].
  rewrite H. reflexivity.
Qed.

Lemma filter_features_app a b :
  filter is_features (a ++ b) = filter is_features a ++ filter is_features b.
Proof. apply filter_app. Qed.

Lemma getBaseToSensorTransform_no_features s listener now stamp fid b :
  filter is_features (snd (getBaseToSensorTransform s listener now stamp fid b)) = [].
Proof.
  unfold getBaseToSensorTransform, warn_throttle.
  destruct (canTransform _ _ _ _); [reflexivity|].
  destruct (dle _ _); reflexivity.
Qed.

Lemma entry_no_features s fr : filter is_features (snd (entry s fr)) = [].
Proof.
  unfold entry. destruct (visual_odometer_ s); [reflexivity|].
  unfold initOdometer.
  destruct (reset_odometer_ (set_visual_odometer s _)); cbn [negb].
  - reflexivity.
  - match goal with |- context [getBaseToSensorTransform ?a ?b ?c ?d ?e ?f] =>
      pose proof (getBaseToSensorTransform_no_features a b c d e f) as G;
      destruct (getBaseToSensorTransform a b c d e f) as [[s1 t] ev]
    end.
    cbn [snd] in *. rewrite filter_features_app, G. reflexivity.
Qed.

Section Suppression.

Variable lm : Libm.

Lemma on_success_no_features s fr om pm :
  filter is_features (snd (on_success lm s fr om pm)) = [].
Proof.
  unfold on_success.
  match goal with |- context [getBaseToSensorTransform ?a ?b ?c ?d ?e ?f] =>
    pose proof (getBaseToSensorTransform_no_features a b c d e f) as G;
    destruct (getBaseToSensorTransform a b c d e f) as [[s1 t] ev]
  end.
  cbn [snd] in G.
  destruct (has_nan _).
  - cbn [snd]. rewrite filter_features_app, G. reflexivity.
  - unfold poseTFToMsg, quaternionTFToMsg.
    destruct (dgt (PrimFloat.abs _) _); destruct (publish_tf_ _); cbn [snd];
      rewrite filter_features_app, G; reflexivity.
Qed.

(** X13. A NaN in the translation the estimator reports is always
    caught: on a success frame where any of the three translation
    components is NaN, [process] publishes nothing, discards the
    estimator and keeps the stored body pose. *)
Theorem nan_translation_is_caught s fr :
  asserts_hold s fr ->
  succeeded fr = true ->
  isnan (Eigen.x (Eigen.translation (fovis.getPose (readings fr))))
  || isnan (Eigen.y (Eigen.translation (fovis.getPose (readings fr))))
  || isnan (Eigen.z (Eigen.translation (fovis.getPose (readings fr)))) = true ->
  exists s' ev,
    process lm s fr = Some (s', ev)
    /\ outputs ev = []
    /\ visual_odometer_ s' = None
    /\ base_transform_ s' = base_transform_ s.
Proof.
  intros A S H.
  destruct (process_nan lm s fr A S (has_nan_of_translation _ H)) as (s1 & ev & K & O & E).
  do 2 eexists. split; [exact E|]. split; [exact O|].
  split; [reflexivity | exact (kept_base_transform _ _ K)].
Qed.

(** X14. The feature image.  A frame that passes the assertions
    publishes the painted feature image exactly when an estimator
    existed on entry (never on a first run, where there is no reference
    image) and the features topic has a subscriber; it is published at
    most once and carries the header of the incoming image. *)
Theorem feature_image_skipped_on_first_run s fr :
  asserts_hold s fr ->
  exists s' ev,
    process lm s fr = Some (s', ev)
    /\ filter is_features ev
       = if match visual_odometer_ s with None => false | Some _ => true end
            && (0 <? features_subscribers fr)%Z
         then [features_pub_publish (msg.image_header (image_msg fr))]
         else [].
Proof.
  intros A. rewrite (process_eq lm s fr A). do 2 eexists. split; [reflexivity|].
  rewrite !filter_features_app, entry_no_features.
  assert (T : filter is_features
                (snd (if fovis.is_success (fovis.getMotionEstimateStatus (readings fr))
                      then on_success lm (fst (entry s fr)) fr
                             (new_odom_msg (fst (entry s fr)) fr)
                             (new_pose_msg (fst (entry s fr)) fr)
                      else on_failure (fst (entry s fr)) fr
                             (new_odom_msg (fst (entry s fr)) fr)
                             (new_pose_msg (fst (entry s fr)) fr))) = []).
  { destruct (fovis.is_success _); [apply on_success_no_features | reflexivity]. }
  cbn [snd]. rewrite T, app_nil_r. cbn [app].
  unfold features_events.
  destruct (visual_odometer_ s); [destruct (0 <? _)%Z|]; reflexivity.
Qed.

(** A frame with no positive time since [last_time_] publishes the
    default twist. *)
Lemma process_no_twist s fr :
  asserts_hold s fr ->
  dgt (elapsed (last_time_ s) (frame_stamp fr)) 0 = false ->
  exists s' ev,
    process lm s fr = Some (s', ev)
    /\ forall m, In (odom_pub_publish m) ev -> msg.odom_twist m = no_twist.
Proof.
  intros A D.
  destruct (succeeded fr) eqn:S.
  - destruct (has_nan (sensor_pose_of fr)) eqn:N.
    + destruct (process_nan lm s fr A S N) as (s1 & ev & _ & O & E).
      do 2 eexists. split; [exact E|].
      intros m I. apply In_outputs in I; [|reflexivity].
      rewrite O in I. destruct I.
    + destruct (process_valid lm s fr A S N) as (s1 & ev & _ & E & O).
      do 2 eexists. split; [exact E|].
      intros m I. apply In_outputs in I; [|reflexivity].
      rewrite O, D in I.
      apply in_app_or in I. destruct I as [I | I].
      * destruct (publish_tf_ s); [destruct I as [I | []]; discriminate | destruct I].
      * destruct I as [I | [I | [I | []]]]; try discriminate.
        injection I as <-. reflexivity.
  - destruct (process_failure lm s fr A S) as (s1 & ev0 & _ & O & E).
    do 2 eexists. split; [exact E|].
    intros m I. apply In_outputs in I; [|reflexivity].
    rewrite outputs_app, O in I.
    destruct I as [I | [I | [I | []]]]; try discriminate.
    injection I as <-. reflexivity.
Qed.

(** X15. No velocity across a failure.  Whatever the state and however
    far apart the stamps, the frame that follows a failed frame publishes
    the default twist: the failure cleared the baseline. *)
Theorem no_velocity_after_a_failed_frame s fr1 fr2 :
  asserts_hold s fr1 ->
  succeeded fr1 = false ->
  cv_step fr2 = msg.width (image_msg fr2) ->
  exists s' ev1 ev2,
    run lm s [fr1; fr2] = Some (s', [ev1; ev2])
    /\ forall m, In (odom_pub_publish m) ev2 -> msg.odom_twist m = no_twist.
Proof.
  intros A F W.
  destruct (process_failure lm s fr1 A F) as (s1 & ev0 & K & _ & E).
  set (s2 := set_last_time s1 ros.Time_zero) in *.
  assert (A2 : asserts_hold s2 fr2).
  { split; [|exact W]. subst s2. cbn [depth_source_ set_last_time].
    rewrite (kept_depth_source _ _ K). apply A. }
  destruct (process_no_twist s2 fr2 A2 eq_refl) as (s' & ev2 & E2 & T).
  do 3 eexists. cbn [run]. rewrite E, E2. split; [reflexivity | exact T].
Qed.

(** X7. An operator's reinitialisation forgets the trajectory.  After
    [processReinitFovis] on an object with no reset pending, the next
    valid frame looks the anchor up again (with the frame id of the
    camera info) and stores anchor * sensor pose * inverse offset: the
    body pose and the anchor held before the call play no part.  The
    call itself only discards the estimator, and a second call in a row
    does nothing. *)
Theorem reinit_looks_the_anchor_up_again s fr :
  reset_odometer_ s = false ->
  asserts_hold s fr ->
  succeeded fr = true ->
  has_nan (sensor_pose_of fr) = false ->
  let s0 := fst (processReinitFovis s) in
  visual_odometer_ s0 = None
  /\ kept s s0
  /\ processReinitFovis s0 = (s0, [])
  /\ exists s' ev,
       process lm s0 fr = Some (s', ev)
       /\ base_transform_ s'
          = body_pose
              (offset s (tf_listener fr) (msg.frame_id (msg.ci_header (info_msg fr))))
              (sensor_pose_of fr)
              (offset s (tf_listener fr) (frame_id_of fr))
              (translation_correction_factor_ s).
Proof.
  intros R A S N s0.
  assert (V0 : visual_odometer_ s0 = None).
  { subst s0. unfold processReinitFovis. destruct (visual_odometer_ s) eqn:V; [reflexivity | exact V]. }
  assert (K0 : kept s s0).
  { subst s0. unfold processReinitFovis. destruct (visual_odometer_ s); constructor; reflexivity. }
  assert (R0 : reset_odometer_ s0 = false).
  { subst s0. unfold processReinitFovis. destruct (visual_odometer_ s); exact R. }
  split; [exact V0|]. split; [exact K0|].
  split; [unfold processReinitFovis; rewrite V0; reflexivity|].
  assert (A0 : asserts_hold s0 fr).
  { split; [rewrite (kept_depth_source _ _ K0); apply A | apply A]. }
  destruct (process_valid lm s0 fr A0 S N) as (s1 & ev & _ & E & _).
  do 2 eexists. split; [exact E|].
  cbn [base_transform_ set_last_published_tf_time set_last_time set_base_transform].
  unfold anchor. rewrite V0, R0, !(offset_kept _ _ _ _ K0), (kept_factor _ _ K0).
  reflexivity.
Qed.

End Suppression.

Section Recovery.

Variable lm : Libm.

(** X16. Recovery after a NaN.  When a success frame with a NaN is
    followed by a valid frame, the first publishes nothing and the second
    stores and reports anchor * sensor pose * inverse offset with its
    origin multiplied by the correction factor, the anchor being the body
    pose stored before the NaN times the offset at the NaN frame.  The
    stored body pose already carries the factor in its origin, so the
    translation carried across the restart is multiplied by the factor a
    second time. *)
Theorem recovery_rescales_the_carried_pose s fr1 fr2 :
  asserts_hold s fr1 ->
  succeeded fr1 = true ->
  has_nan (sensor_pose_of fr1) = true ->
  cv_step fr2 = msg.width (image_msg fr2) ->
  succeeded fr2 = true ->
  has_nan (sensor_pose_of fr2) = false ->
  let restart := tf.mul (base_transform_ s) (offset s (tf_listener fr1) (frame_id_of fr1)) in
  let t := tf.mul (tf.mul restart (sensor_pose_of fr2))
                  (tf.inverse (offset s (tf_listener fr2) (frame_id_of fr2))) in
  let k := translation_correction_factor_ s in
  exists s' ev1 ev2 o,
    run lm s [fr1; fr2] = Some (s', [ev1; ev2])
    /\ outputs ev1 = []
    /\ base_transform_ s' = tf.mkTransform (tf.m_basis t) (tf.scale (tf.m_origin t) k)
    /\ In (odom_pub_publish o) ev2
    /\ msg.position (msg.pose (msg.odom_pose o))
       = msg.mkPoint (tf.getX (tf.m_origin t) * k) (tf.getY (tf.m_origin t) * k)
                     (tf.getZ (tf.m_origin t) * k).
Proof.
  intros A1 S1 N1 W2 S2 N2 restart t k.
  destruct (process_nan lm s fr1 A1 S1 N1) as (s1 & ev1 & K & O & E).
  match type of E with _ = Some (?x, _) => set (s2 := x) in * end.
  assert (K2 : kept s s2) by (destruct K; constructor; assumption).
  assert (A2 : asserts_hold s2 fr2).
  { split; [rewrite (kept_depth_source _ _ K2); apply A1 | exact W2]. }
  assert (An : anchor s2 fr2 = restart) by reflexivity.
  destruct (process_valid lm s2 fr2 A2 S2 N2) as (s3 & ev2 & _ & E2 & O2).
  rewrite poseTFToMsg_pose, An, (offset_kept _ _ _ _ K2), (kept_factor _ _ K2) in O2.
  rewrite An, (offset_kept _ _ _ _ K2), (kept_factor _ _ K2) in E2.
  match type of O2 with
  | _ = _ ++ publish_all ?odom _ _ => do 3 eexists; exists odom
  end.
  cbn [run]. rewrite E, E2. split; [reflexivity|]. split; [exact O|].
  split; [reflexivity|].
  split.
  { apply filter_In with (f := is_output). fold (outputs ev2). rewrite O2.
    apply in_or_app. right. left. reflexivity. }
  unfold body_pose.
  cbn [msg.odom_pose msg.pose msg.position tf.setOrigin tf.getOrigin tf.m_origin
       tf.scale tf.getX tf.getY tf.getZ].
  reflexivity.
Qed.

End Recovery.

(** ** The properties above on the scenario *)

Lemma frame_publications_witness :
  asserts_hold state2 Scenario.frame3
  /\ exists s' ev,
      process Fdlibm.libm state2 Scenario.frame3 = Some (s', ev)
      /\ List.length (outputs ev) = 4%nat.
Proof.
  assert (A : asserts_hold state2 Scenario.frame3) by (apply asserts_state2; reflexivity).
  split; [exact A|].
  destruct (frame_publications_shape Fdlibm.libm state2 Scenario.frame3 A)
    as (s' & ev & E & [(_ & N & _) | (o & p & O & _)]).
  - vm_compute in N. discriminate N.
  - exists s', ev. split; [exact E|]. rewrite O. reflexivity.
Defined.

Lemma frame_clock_witness :
  asserts_hold state2 Scenario.frame_nan
  /\ exists s' ev,
      process Fdlibm.libm state2 Scenario.frame_nan = Some (s', ev)
      /\ last_time_ s' = ros.mkTime 2 0
      /\ last_published_tf_time_ s' = ros.mkTime 2 0.
Proof.
  assert (A : asserts_hold state2 Scenario.frame_nan) by (apply asserts_state2; reflexivity).
  split; [exact A|].
  destruct (frame_clock_bookkeeping Fdlibm.libm state2 Scenario.frame_nan A)
    as (s' & ev & E & L & P).
  exists s', ev. split; [exact E|].
  rewrite L, P. split; vm_compute; reflexivity.
Defined.

Lemma keepalive_after_valid_frame_witness :
  asserts_hold state2 Scenario.frame3
  /\ succeeded Scenario.frame3 = true
  /\ has_nan (sensor_pose_of Scenario.frame3) = false
  /\ exists s' ev,
      process Fdlibm.libm state2 Scenario.frame3 = Some (s', ev)
      /\ publishLastKnownTf s' (ros.mkTime 11 500000000) (ros.mkTime 11 500000001) = (s', [])
      /\ snd (publishLastKnownTf s' (ros.mkTime 11 500000001) (ros.mkTime 11 500000002))
         = [sendTransform
              (tf.mkStampedTransform
                 (tf.mkTransform tf.Matrix_identity (tf.mkVector3 2 0 0))
                 (ros.mkTime 11 500000002) "/odom" "/base_link")].
Proof.
  assert (A : asserts_hold state2 Scenario.frame3) by (apply asserts_state2; reflexivity).
  assert (S : succeeded Scenario.frame3 = true) by reflexivity.
  assert (N : has_nan (sensor_pose_of Scenario.frame3) = false) by (vm_compute; reflexivity).
  split; [exact A|]. split; [exact S|]. split; [exact N|].
  destruct (keepalive_after_valid_frame Fdlibm.libm state2 Scenario.frame3
              (ros.mkTime 11 500000000) (ros.mkTime 11 500000001) A S N)
    as (s' & ev & E & Q & _).
  exists s', ev. split; [exact E|].
  split; [apply Q; vm_compute; discriminate|].
  assert (E' := E). vm_compute in E'. injection E' as <- _. vm_compute. reflexivity.
Defined.

Lemma keepalive_refire_witness :
  (ros.toNSec (ros.mkTime 29 0) - ros.toNSec (ros.mkTime 20 1) <= 9000000000)%Z
  /\ snd (publishLastKnownTf state2 (ros.mkTime 20 0) (ros.mkTime 20 1)) <> []
  /\ publishLastKnownTf (fst (publishLastKnownTf state2 (ros.mkTime 20 0) (ros.mkTime 20 1)))
       (ros.mkTime 29 0) (ros.mkTime 29 1)
     = (fst (publishLastKnownTf state2 (ros.mkTime 20 0) (ros.mkTime 20 1)), []).
Proof.
  assert (L : (ros.toNSec (ros.mkTime 29 0) - ros.toNSec (ros.mkTime 20 1) <= 9000000000)%Z)
    by (vm_compute; discriminate).
  assert (F : snd (publishLastKnownTf state2 (ros.mkTime 20 0) (ros.mkTime 20 1)) <> [])
    by (vm_compute; discriminate).
  split; [exact L|]. split; [exact F|].
  exact (keepalive_does_not_refire_within_9s state2 (ros.mkTime 20 0) (ros.mkTime 20 1)
           (ros.mkTime 29 0) (ros.mkTime 29 1) L F).
Defined.

Lemma configuration_witness :
  exists s' ev,
    calls Fdlibm.libm (OdometerBase_new Scenario.params []) example_calls = Some (s', ev)
    /\ same_configuration (OdometerBase_new Scenario.params []) s'.
Proof.
  destruct (calls Fdlibm.libm (OdometerBase_new Scenario.params []) example_calls)
    as [[s' ev]|] eqn:E.
  - exists s', ev. split; [reflexivity|].
    exact (configuration_is_never_changed Fdlibm.libm example_calls _ _ _ E).
  - vm_compute in E. discriminate E.
Defined.

Lemma reset_flag_witness :
  exists s' ev,
    calls Fdlibm.libm (OdometerBase_new Scenario.params []) example_calls = Some (s', ev)
    /\ reset_odometer_ s' = true
    /\ visual_odometer_ s' = None.
Proof.
  destruct (calls Fdlibm.libm (OdometerBase_new Scenario.params []) example_calls)
    as [[s' ev]|] eqn:E.
  - assert (R : reset_odometer_ s' = true).
    { vm_compute in E. injection E as <- _. reflexivity. }
    exists s', ev. split; [reflexivity|]. split; [exact R|].
    exact (reset_flag_implies_no_estimator Fdlibm.libm _ _ example_calls _ _ E R).
  - vm_compute in E. discriminate E.
Defined.

Lemma nan_translation_witness :
  asserts_hold state2 Scenario.frame_nan
  /\ succeeded Scenario.frame_nan = true
  /\ exists s' ev,
      process Fdlibm.libm state2 Scenario.frame_nan = Some (s', ev)
      /\ outputs ev = []
      /\ tf.getOrigin (base_transform_ s') = tf.mkVector3 1 0 0.
Proof.
  assert (A : asserts_hold state2 Scenario.frame_nan) by (apply asserts_state2; reflexivity).
  assert (S : succeeded Scenario.frame_nan = true) by reflexivity.
  split; [exact A|]. split; [exact S|].
  destruct (nan_translation_is_caught Fdlibm.libm state2 Scenario.frame_nan A S eq_refl)
    as (s' & ev & E & O & _ & B).
  exists s', ev. split; [exact E|]. split; [exact O|].
  rewrite B. vm_compute. reflexivity.
Defined.

Lemma feature_image_witness :
  asserts_hold Scenario.start Scenario.frame1
  /\ exists s' ev,
      process Fdlibm.libm Scenario.start Scenario.frame1 = Some (s', ev)
      /\ filter is_features ev = [].
Proof.
  assert (A : asserts_hold Scenario.start Scenario.frame1)
    by (split; [discriminate | reflexivity]).
  split; [exact A|].
  destruct (feature_image_skipped_on_first_run Fdlibm.libm Scenario.start Scenario.frame1 A)
    as (s' & ev & E & F).
  exists s', ev. split; [exact E | exact F].
Defined.

Lemma no_velocity_after_failure_witness :
  asserts_hold Scenario.start Scenario.frame1
  /\ succeeded Scenario.frame1 = false
  /\ exists s' ev1 ev2,
      run Fdlibm.libm Scenario.start [Scenario.frame1; Scenario.frame2]
      = Some (s', [ev1; ev2])
      /\ forall m, In (odom_pub_publish m) ev2 -> msg.odom_twist m = no_twist.
Proof.
  assert (A : asserts_hold Scenario.start Scenario.frame1)
    by (split; [discriminate | reflexivity]).
  split; [exact A|]. split; [reflexivity|].
  exact (no_velocity_after_a_failed_frame Fdlibm.libm Scenario.start Scenario.frame1
           Scenario.frame2 A eq_refl eq_refl).
Defined.

Lemma reinit_witness :
  reset_odometer_ state2 = false
  /\ asserts_hold state2 frame_restart
  /\ tf.getOrigin (base_transform_ state2) = tf.mkVector3 1 0 0
  /\ exists s' ev,
      process Fdlibm.libm (fst (processReinitFovis state2)) frame_restart = Some (s', ev)
      /\ base_transform_ s' = tf.mkTransform tf.Matrix_identity (tf.mkVector3 0 0 0).
Proof.
  assert (R : reset_odometer_ state2 = false) by (vm_compute; reflexivity).
  assert (A : asserts_hold state2 frame_restart) by (apply asserts_state2; reflexivity).
  assert (N : has_nan (sensor_pose_of frame_restart) = false) by (vm_compute; reflexivity).
  split; [exact R|]. split; [exact A|]. split; [vm_compute; reflexivity|].
  destruct (reinit_looks_the_anchor_up_again Fdlibm.libm state2 frame_restart R A eq_refl N)
    as (_ & _ & _ & s' & ev & E & B).
  exists s', ev. split; [exact E|]. rewrite B. vm_compute. reflexivity.
Defined.

(** With the factor 1.0 the pose (1, 0, 0) held before the NaN is the pose
    after the restart.  With [tf_factor] 2.0 and a restarted estimator at
    rest the pose goes from (2, 0, 0) to (4, 0, 0), and under the mount
    from (0, 2, 0) to (0, 4, 0). *)
Lemma recovery_witness :
  (asserts_hold state2 Scenario.frame_nan
   /\ has_nan (sensor_pose_of Scenario.frame_nan) = true
   /\ has_nan (sensor_pose_of frame_restart) = false
   /\ translation_correction_factor_ state2 = 1
   /\ tf.getOrigin (base_transform_ state2) = tf.mkVector3 1 0 0
   /\ exists s' ev1 ev2 o,
       run Fdlibm.libm state2 [Scenario.frame_nan; frame_restart] = Some (s', [ev1; ev2])
       /\ outputs ev1 = []
       /\ base_transform_ s' = tf.mkTransform tf.Matrix_identity (tf.mkVector3 1 0 0)
       /\ In (odom_pub_publish o) ev2
       /\ msg.position (msg.pose (msg.odom_pose o)) = msg.mkPoint 1 0 0)
  /\ (asserts_hold state2_factor2 Scenario.frame_nan
      /\ translation_correction_factor_ state2_factor2 = 2
      /\ tf.getOrigin (base_transform_ state2_factor2) = tf.mkVector3 2 0 0
      /\ tf.getOrigin (sensor_pose_of frame_restart) = tf.mkVector3 0 0 0
      /\ exists s' ev1 ev2 o,
          run Fdlibm.libm state2_factor2 [Scenario.frame_nan; frame_restart]
          = Some (s', [ev1; ev2])
          /\ outputs ev1 = []
          /\ base_transform_ s' = tf.mkTransform tf.Matrix_identity (tf.mkVector3 4 0 0)
          /\ In (odom_pub_publish o) ev2
          /\ msg.position (msg.pose (msg.odom_pose o)) = msg.mkPoint 4 0 0)
  /\ (asserts_hold (mounted_state2 mount Scenario.start2) (mounted mount Scenario.frame_nan)
      /\ tf.getOrigin (base_transform_ (mounted_state2 mount Scenario.start2))
         = tf.mkVector3 0 2 0
      /\ offset (mounted_state2 mount Scenario.start2)
                (tf_listener (mounted mount Scenario.frame_nan))
                (frame_id_of (mounted mount Scenario.frame_nan)) = mount
      /\ tf.mul mount (tf.inverse mount) = tf.identity
      /\ exists s' ev1 ev2 o,
          run Fdlibm.libm (mounted_state2 mount Scenario.start2)
            [mounted mount Scenario.frame_nan; mounted mount frame_restart]
          = Some (s', [ev1; ev2])
          /\ outputs ev1 = []
          /\ base_transform_ s' = tf.mkTransform tf.Matrix_identity (tf.mkVector3 0 4 0)
          /\ In (odom_pub_publish o) ev2
          /\ msg.position (msg.pose (msg.odom_pose o)) = msg.mkPoint 0 4 0).
Proof.
  assert (A : asserts_hold state2 Scenario.frame_nan) by (apply asserts_state2; reflexivity).
  assert (A' : asserts_hold state2_factor2 Scenario.frame_nan)
    by (split; [vm_compute; discriminate | reflexivity]).
  assert (A'' : asserts_hold (mounted_state2 mount Scenario.start2)
                  (mounted mount Scenario.frame_nan))
    by (split; [vm_compute; discriminate | reflexivity]).
  assert (N1 : has_nan (sensor_pose_of Scenario.frame_nan) = true) by (vm_compute; reflexivity).
  assert (N2 : has_nan (sensor_pose_of frame_restart) = false) by (vm_compute; reflexivity).
  split; [|split].
  - split; [exact A|]. split; [exact N1|]. split; [exact N2|].
    split; [vm_compute; reflexivity|]. split; [vm_compute; reflexivity|].
    destruct (recovery_rescales_the_carried_pose Fdlibm.libm state2 Scenario.frame_nan
                frame_restart A eq_refl N1 eq_refl eq_refl N2)
      as (s' & ev1 & ev2 & o & E & O & B & I & P).
    exists s', ev1, ev2, o. split; [exact E|]. split; [exact O|].
    split; [rewrite B; vm_compute; reflexivity|]. split; [exact I|].
    rewrite P. vm_compute. reflexivity.
  - split; [exact A'|]. split; [vm_compute; reflexivity|]. split; [vm_compute; reflexivity|].
    split; [vm_compute; reflexivity|].
    destruct (recovery_rescales_the_carried_pose Fdlibm.libm state2_factor2
                Scenario.frame_nan frame_restart A' eq_refl N1 eq_refl eq_refl N2)
      as (s' & ev1 & ev2 & o & E & O & B & I & P).
    exists s', ev1, ev2, o. split; [exact E|]. split; [exact O|].
    split; [rewrite B; vm_compute; reflexivity|]. split; [exact I|].
    rewrite P. vm_compute. reflexivity.
  - split; [exact A''|]. split; [vm_compute; reflexivity|]. split; [vm_compute; reflexivity|].
    split; [vm_compute; reflexivity|].
    destruct (recovery_rescales_the_carried_pose Fdlibm.libm
                (mounted_state2 mount Scenario.start2) (mounted mount Scenario.frame_nan)
                (mounted mount frame_restart) A'' eq_refl N1 eq_refl eq_refl N2)
      as (s' & ev1 & ev2 & o & E & O & B & I & P).
    exists s', ev1, ev2, o. split; [exact E|]. split; [exact O|].
    split; [rewrite B; vm_compute; reflexivity|]. split; [exact I|].
    rewrite P. vm_compute. reflexivity.
Defined.
